(** * Expense tracker: a shallow embedding of [expense_tracker.py]

    The program is a command-line tool keeping a list of expense records
    in a JSON file.  Every command loads the whole file, works on the
    list in memory and, when it succeeds, writes the whole list back.

    The embedding follows the source function by function:
    - Python [float] values are IEEE 754 binary64 numbers, modelled by
      [spec_float] with [prec = 53] and [emax = 1024];
    - strings are [string]; ids and month numbers are unbounded Python
      [int]s, modelled by [Z];
    - the builtins the program calls ([float], [sum], [max],
      [datetime.strptime], [strftime]) are modelled on ASCII input;
    - the commands run in a small state-and-exception monad over a
      [world] made of the clock, the data file and standard output. *)

From Stdlib Require Import ZArith List String Ascii Bool Lia Sorted.
From Stdlib Require Import SpecFloat.
Import ListNotations.

Local Open Scope string_scope.
Local Open Scope list_scope.
Local Open Scope Z_scope.

(** ** Python exceptions and the pure exception monad *)

(** The only exception the program raises or catches is [ValueError]
    (and [json.JSONDecodeError], which [load_expenses] turns into an
    empty list on the spot). *)
Inductive exn : Type :=
| ValueError (msg : string).

Inductive result (A : Type) : Type :=
| Ok (a : A)
| Raise (e : exn).

Arguments Ok {A} a.
Arguments Raise {A} e.

Definition rbind {A B} (r : result A) (k : A -> result B) : result B :=
  match r with
  | Ok a => k a
  | Raise e => Raise e
  end.

(** [try: body  except ValueError: handler] for pure code. *)
Definition rcatch {A} (body : result A) (handler : exn -> result A) : result A :=
  match body with
  | Ok a => Ok a
  | Raise e => handler e
  end.

(** ** Characters *)

Module Char.

Definition code (c : ascii) : Z := Z.of_nat (nat_of_ascii c).

Definition is_digit (c : ascii) : bool := (48 <=? code c) && (code c <=? 57).

Definition digit_value (c : ascii) : Z := code c - 48.

Definition in_range (lo hi c : ascii) : bool :=
  (code lo <=? code c) && (code c <=? code hi).

(** [Py_ISSPACE]: space, and the controls tab to carriage return. *)
Definition Py_ISSPACE (c : ascii) : bool :=
  (code c =? 32) || ((9 <=? code c) && (code c <=? 13)).

(** [Py_TOLOWER] on ASCII. *)
Definition Py_TOLOWER (c : ascii) : ascii :=
  if (65 <=? code c) && (code c <=? 90)
  then ascii_of_nat (nat_of_ascii c + 32)
  else c.

(** The ASCII digit of [n mod 10]. *)
Definition of_digit (n : Z) : ascii := ascii_of_nat (Z.to_nat (48 + n mod 10)).

End Char.

(** ** Python floats *)

Module PyFloat.

Definition prec : Z := 53.
Definition emax : Z := 1024.

Definition float : Type := spec_float.

Definition zero : float := S754_zero false.
Definition nan : float := S754_nan.
Definition infinity (neg : bool) : float := S754_infinity neg.

Definition add : float -> float -> float := SFadd prec emax.
Definition leb : float -> float -> bool := SFleb.
Definition ltb : float -> float -> bool := SFltb.

(** The binary64 number nearest to [(-1)^neg * digits * 10^e10], ties
    to even: what a correctly rounded [strtod] returns for a decimal
    literal with digit string [digits] and decimal exponent [e10].
    Overflow gives an infinity and underflow a signed zero. *)
Definition of_decimal (neg : bool) (digits : Z) (e10 : Z) : float :=
  match digits with
  | Z0 => S754_zero neg
  | Zpos d =>
      if 0 <=? e10
      then binary_normalize prec emax
             (if neg then - (Zpos d * 10 ^ e10) else Zpos d * 10 ^ e10) 0 neg
      else
        let '(q, e, l) :=
          SFdiv_core_binary prec emax (Zpos d) 0 (10 ^ (- e10)) 0 in
        binary_round_aux prec emax neg q e l
  | Zneg _ => S754_nan
  end.

(** *** [float(str)] *)

(** A maximal run of ASCII digits: its value, its length, the rest. *)
Fixpoint digits_from (acc : Z) (n : Z) (s : list ascii) : Z * Z * list ascii :=
  match s with
  | c :: s' =>
      if Char.is_digit c
      then digits_from (10 * acc + Char.digit_value c) (n + 1) s'
      else (acc, n, s)
  | [] => (acc, n, s)
  end.

Definition sign_of (s : list ascii) : bool * list ascii :=
  match s with
  | "-"%char :: s' => (true, s')
  | "+"%char :: s' => (false, s')
  | _ => (false, s)
  end.

(** The exponent part of a literal: [e] or [E], an optional sign and
    at least one digit.  Without a digit the exponent is not part of
    the number and the scan stops before the [e]. *)
Definition exponent_of (s : list ascii) : Z * list ascii :=
  match s with
  | c :: s1 =>
      if (Char.code c =? 101) || (Char.code c =? 69) then
        let '(eneg, s2) := sign_of s1 in
        let '(v, n, s3) := digits_from 0 0 s2 in
        if n =? 0 then (0, s) else ((if eneg then - v else v), s3)
      else (0, s)
  | [] => (0, s)
  end.

(** [_Py_dg_strtod]: sign, digits, optional point and digits, optional
    exponent.  [None] when there is no digit at all.  (The limits of
    CPython on the number of digits and on the exponent, about [10^9],
    are out of reach of a command-line argument and are left out.) *)
Definition dg_strtod (s : list ascii) : option (float * list ascii) :=
  let '(neg, s1) := sign_of s in
  let '(ip, ni, s2) := digits_from 0 0 s1 in
  let '(m, nf, s3) :=
    match s2 with
    | "."%char :: s2' => digits_from ip 0 s2'
    | _ => (ip, 0, s2)
    end in
  if ni + nf =? 0 then None
  else
    let '(e, s4) := exponent_of s3 in
    Some (of_decimal neg m (e - nf), s4).

(** [case_insensitive_match]: [t] is lower case. *)
Fixpoint case_insensitive_match (s t : list ascii) : option (list ascii) :=
  match t with
  | [] => Some s
  | ct :: t' =>
      match s with
      | cs :: s' =>
          if Ascii.eqb (Char.Py_TOLOWER cs) ct
          then case_insensitive_match s' t'
          else None
      | [] => None
      end
  end.

(** [_Py_parse_inf_or_nan]. *)
Definition parse_inf_or_nan (s : list ascii) : option (float * list ascii) :=
  let '(neg, s1) := sign_of s in
  match case_insensitive_match s1 (list_ascii_of_string "inf") with
  | Some s2 =>
      match case_insensitive_match s2 (list_ascii_of_string "inity") with
      | Some s3 => Some (infinity neg, s3)
      | None => Some (infinity neg, s2)
      end
  | None =>
      match case_insensitive_match s1 (list_ascii_of_string "nan") with
      | Some s2 => Some (nan, s2)
      | None => None
      end
  end.

(** [_PyOS_ascii_strtod]: a number, else an infinity or a NaN. *)
Definition ascii_strtod (s : list ascii) : option (float * list ascii) :=
  match dg_strtod s with
  | Some r => Some r
  | None => parse_inf_or_nan s
  end.

Fixpoint lstrip (s : list ascii) : list ascii :=
  match s with
  | c :: s' => if Char.Py_ISSPACE c then lstrip s' else s
  | [] => []
  end.

Definition strip (s : list ascii) : list ascii :=
  rev (lstrip (rev (lstrip s))).

(** [_Py_string_to_number_with_underscores]: an underscore is accepted
    between two digits only, and is dropped. *)
Fixpoint drop_underscores (prev : option ascii) (s : list ascii)
  : option (list ascii) :=
  match s with
  | [] =>
      match prev with
      | Some "_"%char => None
      | _ => Some []
      end
  | "_"%char :: s' =>
      match prev with
      | Some p =>
          if Char.is_digit p then drop_underscores (Some "_"%char) s' else None
      | None => None
      end
  | c :: s' =>
      let after_underscore :=
        match prev with
        | Some "_"%char => true
        | _ => false
        end in
      if after_underscore && negb (Char.is_digit c) then None
      else option_map (cons c) (drop_underscores (Some c) s')
  end.

(** [float_from_string_inner]: strip the white space, scan a number,
    and require that the scan ends where the string ends. *)
Definition from_string_inner (s : list ascii) : option float :=
  match strip s with
  | [] => None
  | t =>
      match ascii_strtod t with
      | Some (x, []) => Some x
      | _ => None
      end
  end.

(** [float(s)] for a [str] argument; [None] stands for [ValueError]. *)
Definition of_string (s : string) : option float :=
  match drop_underscores None (list_ascii_of_string s) with
  | Some t => from_string_inner t
  | None => None
  end.

(** [sum(...)] over floats: Python starts from the integer [0] and adds
    the items from left to right; the first addition converts the
    running total to a float.  The running total starts here at [+0.0],
    which adds like the integer [0] does and prints the same when the
    list is empty.  (From CPython 3.12 on, [sum] also carries a
    compensation term for the rounding errors of these additions; the
    statements below are about which amounts are summed and in which
    order, and do not depend on how the additions round.) *)
Definition sum (xs : list float) : float := fold_left add xs zero.

End PyFloat.

(** ** Dates: [datetime.strptime(_, '%Y-%m-%d')] and [strftime('%Y-%m-%d')] *)

Module Datetime.

(** The part of a [datetime] the program looks at. *)
Record datetime : Type := { year : Z; month : Z; day : Z }.

Definition is_leap (y : Z) : bool :=
  (y mod 4 =? 0) && (negb (y mod 100 =? 0) || (y mod 400 =? 0)).

Definition days_in_month (y m : Z) : Z :=
  if m =? 2 then (if is_leap y then 29 else 28)
  else if (m =? 4) || (m =? 6) || (m =? 9) || (m =? 11) then 30
  else 31.

(** The range check of the [datetime] constructor. *)
Definition valid (d : datetime) : bool :=
  (1 <=? year d) && (year d <=? 9999) &&
  (1 <=? month d) && (month d <=? 12) &&
  (1 <=? day d) && (day d <=? days_in_month (year d) (month d)).

(** [strptime] turns the format into a regular expression,
    [(\d\d\d\d)-(1[0-2]|0[1-9]|[1-9])-(3[01]|[12]\d|0[1-9]|[1-9]| [1-9])],
    and matches it at the start of the string.  Each group is given
    here as the list of its matches in the order the regular
    expression engine tries them: value and remaining input. *)
Definition one (lo hi : ascii) (s : list ascii) : list (Z * list ascii) :=
  match s with
  | c :: r => if Char.in_range lo hi c then [(Char.digit_value c, r)] else []
  | [] => []
  end.

Definition two (lo1 hi1 lo2 hi2 : ascii) (s : list ascii) : list (Z * list ascii) :=
  match s with
  | c1 :: c2 :: r =>
      if Char.in_range lo1 hi1 c1 && Char.in_range lo2 hi2 c2
      then [(10 * Char.digit_value c1 + Char.digit_value c2, r)]
      else []
  | _ => []
  end.

Definition year_group (s : list ascii) : list (Z * list ascii) :=
  match s with
  | c1 :: c2 :: c3 :: c4 :: r =>
      if Char.is_digit c1 && Char.is_digit c2 && Char.is_digit c3 && Char.is_digit c4
      then [(1000 * Char.digit_value c1 + 100 * Char.digit_value c2
             + 10 * Char.digit_value c3 + Char.digit_value c4, r)]
      else []
  | _ => []
  end.

Definition month_group (s : list ascii) : list (Z * list ascii) :=
  two "1" "1" "0" "2" s ++ two "0" "0" "1" "9" s ++ one "1" "9" s.

Definition day_group (s : list ascii) : list (Z * list ascii) :=
  two "3" "3" "0" "1" s ++ two "1" "2" "0" "9" s ++ two "0" "0" "1" "9" s
    ++ one "1" "9" s
    ++ match s with
       | " "%char :: r => one "1" "9" r
       | _ => []
       end.

Definition dash (s : list ascii) : list (list ascii) :=
  match s with
  | "-"%char :: r => [r]
  | _ => []
  end.

(** The matches of [-(month)-(day)], first match first: the engine
    tries the alternatives of the month in order and, under each, the
    alternatives of the day. *)
Definition month_day (s : list ascii) : list (Z * Z * list ascii) :=
  flat_map (fun s1 =>
    flat_map (fun '(m, s2) =>
      flat_map (fun s3 => map (fun '(d, s4) => (m, d, s4)) (day_group s3))
        (dash s2))
      (month_group s1))
    (dash s).

(** All the matches of the whole expression, first match first. *)
Definition matches (s : list ascii) : list (Z * Z * Z * list ascii) :=
  flat_map (fun '(y, s1) => map (fun '(m, d, s2) => (y, m, d, s2)) (month_day s1))
    (year_group s).

(** [datetime.strptime(s, '%Y-%m-%d')]: the first match must reach the
    end of the string ("unconverted data remains" otherwise) and name a
    date of the calendar.  [None] stands for [ValueError]. *)
Definition strptime (s : string) : option datetime :=
  match matches (list_ascii_of_string s) with
  | (y, m, d, []) :: _ =>
      let t := {| year := y; month := m; day := d |} in
      if valid t then Some t else None
  | _ => None
  end.

Definition two_digits (n : Z) : string :=
  String (Char.of_digit (n / 10)) (String (Char.of_digit n) EmptyString).

(** [strftime('%Y-%m-%d')], for the four-digit years of a running clock. *)
Definition strftime (t : datetime) : string :=
  (two_digits (year t / 100) ++ two_digits (year t) ++ "-"
     ++ two_digits (month t) ++ "-" ++ two_digits (day t))%string.

(** [strftime('%B')] of a month number, in the C locale. *)
Definition month_name (m : Z) : string :=
  nth (Z.to_nat (m - 1))
    ["January"; "February"; "March"; "April"; "May"; "June"; "July";
     "August"; "September"; "October"; "November"; "December"] "".

End Datetime.

(** ** The data model *)

(** One record of the JSON file: the dictionary with the keys ['id'],
    ['date'], ['description'], ['amount'] and ['category']. *)
Record Expense : Type := {
  id : Z;
  date : string;
  description : string;
  amount : PyFloat.float;
  category : string
}.

Definition set_description (e : Expense) (d : string) : Expense :=
  {| id := id e; date := date e; description := d;
     amount := amount e; category := category e |}.

Definition set_amount (e : Expense) (a : PyFloat.float) : Expense :=
  {| id := id e; date := date e; description := description e;
     amount := a; category := category e |}.

Definition set_category (e : Expense) (c : string) : Expense :=
  {| id := id e; date := date e; description := description e;
     amount := amount e; category := c |}.

(** [DATA_FILE]: absent; present with text that is not JSON, which
    [json.load] rejects with [json.JSONDecodeError] ([Malformed]); or
    holding a JSON list of records with the five keys, as
    [save_expenses] writes it.  [json.dump] and [json.load] carry every
    float through unchanged, NaN and the infinities included.  A file
    that cannot be decoded as text, and a file holding JSON of another
    shape, are not values of this type: [load_expenses] does not catch
    what they raise. *)
Inductive data_file : Type :=
| NoFile
| Malformed
| Json (expenses : list Expense).

Definition CATEGORIES : list string :=
  ["Food"; "Transportation"; "Housing"; "Utilities";
   "Entertainment"; "Shopping"; "Healthcare"; "Other"].

(** ** Standard output *)

(** A row of the table [list_expenses] prints: id, date, category,
    description, amount.  The amount is kept as the number; its rendering
    with two decimals and a dollar sign is not modelled. *)
Definition row : Type := (Z * string * string * string * PyFloat.float)%type.

(** What a [print] call writes, one constructor per format string of the
    source.  Numbers stay numbers. *)
Inductive line : Type :=
| AddedLine (new_id : Z)               (* Expense added successfully (ID: _) *)
| UpdatedLine (expense_id : Z)         (* Expense updated successfully (ID: _) *)
| DeletedLine                          (* Expense deleted successfully *)
| ErrorLine (msg : string)             (* Error: _ *)
| NotFoundLine (expense_id : Z)        (* Error: No expense found with ID _ *)
| InvalidMonthLine                     (* Error: Invalid month *)
| NoFlagsLine                          (* Error: At least one of ... *)
| NoExpensesLine                       (* No expenses found *)
| NoExpensesInCategoryLine (c : string) (* No expenses found in category: _ *)
| TableLine (rows : list row)
| TotalMonthCategoryLine (month_name c : string) (total : PyFloat.float)
| TotalMonthLine (month_name : string) (total : PyFloat.float)
| TotalCategoryLine (c : string) (total : PyFloat.float)
| TotalLine (total : PyFloat.float)
| BreakdownLine                        (* Breakdown by category: *)
| CategoryTotalLine (c : string) (cat_total : PyFloat.float)
| HelpLine.

(** ** The world and the command monad *)

Record world : Type := {
  clock : Datetime.datetime;   (* what [datetime.now()] returns *)
  file : data_file;            (* the content of [DATA_FILE] *)
  stdout : list line           (* everything printed so far *)
}.

(** A computation changes the world and returns or raises; what it did
    to the world before raising stays done. *)
Definition Py (A : Type) : Type := world -> result A * world.

Definition ret {A} (a : A) : Py A := fun w => (Ok a, w).

Definition bind {A B} (c : Py A) (k : A -> Py B) : Py B :=
  fun w =>
    match c w with
    | (Ok a, w') => k a w'
    | (Raise e, w') => (Raise e, w')
    end.

Definition lift {A} (r : result A) : Py A := fun w => (r, w).

Definition raise {A} (e : exn) : Py A := fun w => (Raise e, w).

(** [try: body  except ValueError as e: handler]. *)
Definition try_except {A} (body : Py A) (handler : exn -> Py A) : Py A :=
  fun w =>
    match body w with
    | (Ok a, w') => (Ok a, w')
    | (Raise e, w') => handler e w'
    end.

Definition print (l : line) : Py unit :=
  fun w => (Ok tt, {| clock := clock w; file := file w; stdout := stdout w ++ [l] |}).

Definition datetime_now : Py Datetime.datetime :=
  fun w => (Ok (clock w), w).

Declare Scope py_scope.
Delimit Scope py_scope with py.
Notation "x <- c1 ;; c2" := (bind c1 (fun x => c2))
  (at level 61, c1 at next level, right associativity) : py_scope.
Notation "c1 ;; c2" := (bind c1 (fun _ => c2))
  (at level 61, right associativity) : py_scope.
Local Open Scope py_scope.

(** ** The functions of [expense_tracker.py] *)

(** A missing file and a file that is not JSON both load as the empty
    list. *)
Definition load_expenses : Py (list Expense) :=
  fun w =>
    match file w with
    | NoFile => (Ok [], w)
    | Malformed => (Ok [], w)
    | Json expenses => (Ok expenses, w)
    end.

Definition save_expenses (expenses : list Expense) : Py unit :=
  fun w => (Ok tt, {| clock := clock w; file := Json expenses; stdout := stdout w |}).

(** [max(expense['id'] for expense in expenses)] on a non-empty list. *)
Definition max_id (first : Expense) (others : list Expense) : Z :=
  fold_left Z.max (map id others) (id first).

Definition get_next_id (expenses : list Expense) : Z :=
  match expenses with
  | [] => 1
  | first :: others => max_id first others + 1
  end.

(** Both [ValueError]s raised in the [try] block, the one of [float] and
    the one of the sign test, are caught and replaced. *)
Definition validate_amount (amount : string) : result PyFloat.float :=
  rcatch
    (rbind (match PyFloat.of_string amount with
            | Some x => Ok x
            | None => Raise (ValueError "could not convert string to float")
            end)
       (fun amount =>
          if PyFloat.leb amount PyFloat.zero
          then Raise (ValueError "Amount must be positive")
          else Ok amount))
    (fun _ => Raise (ValueError "Invalid amount")).

Definition mem (c : string) (l : list string) : bool :=
  existsb (String.eqb c) l.

Definition invalid_category_message : string :=
  ("Invalid category. Available categories: " ++ String.concat ", " CATEGORIES)%string.

Definition validate_category (category : string) : result string :=
  if negb (mem category CATEGORIES)
  then Raise (ValueError invalid_category_message)
  else Ok category.

Definition message (e : exn) : string :=
  match e with
  | ValueError msg => msg
  end.

Definition add_expense (description amount category : string) : Py unit :=
  try_except
    (amount <- lift (validate_amount amount) ;;
     category <- lift (validate_category category) ;;
     expenses <- load_expenses ;;
     now <- datetime_now ;;
     let new_expense :=
       {| id := get_next_id expenses;
          date := Datetime.strftime now;
          description := description;
          amount := amount;
          category := category |} in
     let expenses := expenses ++ [new_expense] in
     save_expenses expenses ;;
     print (AddedLine (id new_expense)))
    (fun e => print (ErrorLine (message e))).

(** The body of the [if expense['id'] == expense_id] branch up to the
    [save_expenses] call: the three assignments to the record, in the
    order of the source.  The record lives in memory only, so an
    exception raised by a later assignment loses the earlier ones. *)
Definition update_fields (expense : Expense)
    (description amount category : option string) : result Expense :=
  let expense :=
    match description with
    | Some d => set_description expense d
    | None => expense
    end in
  rbind
    (match amount with
     | Some a => rbind (validate_amount a) (fun v => Ok (set_amount expense v))
     | None => Ok expense
     end)
    (fun expense =>
       match category with
       | Some c => rbind (validate_category c) (fun v => Ok (set_category expense v))
       | None => Ok expense
       end).

(** The [for] loop of [update_expense]: [seen] are the records already
    passed.  It returns [true] when it left through the [return] and
    [false] when it ran to the end. *)
Fixpoint update_loop (seen expenses : list Expense) (expense_id : Z)
    (description amount category : option string) : Py bool :=
  match expenses with
  | [] => ret false
  | expense :: rest =>
      if id expense =? expense_id then
        expense <- lift (update_fields expense description amount category) ;;
        save_expenses (seen ++ expense :: rest) ;;
        print (UpdatedLine expense_id) ;;
        ret true
      else
        update_loop (seen ++ [expense]) rest expense_id description amount category
  end.

Definition update_expense (expense_id : Z)
    (description amount category : option string) : Py unit :=
  try_except
    (expenses <- load_expenses ;;
     returned <- update_loop [] expenses expense_id description amount category ;;
     if returned then ret tt else print (NotFoundLine expense_id))
    (fun e => print (ErrorLine (message e))).

(** Python truthiness of an optional argument: [None], the empty string
    and the integer [0] are false.  [if_given] returns the argument when
    the test [if category:] or [if month:] passes. *)
Definition truthy_str (category : option string) : option string :=
  match category with
  | Some c => if String.eqb c "" then None else Some c
  | None => None
  end.

Definition truthy_int (month : option Z) : option Z :=
  match month with
  | Some m => if m =? 0 then None else Some m
  | None => None
  end.

Definition in_category (c : string) (exp : Expense) : bool :=
  String.eqb (category exp) c.

(** The block [if category: try: ... except ValueError ...], which
    [list_expenses] and [get_summary] both contain word for word.  It
    returns the list to go on with, or [None] when the function has
    printed a message and returned. *)
Definition filter_category (category : option string) (expenses : list Expense)
  : Py (option (list Expense)) :=
  match truthy_str category with
  | Some c =>
      try_except
        (_ <- lift (validate_category c) ;;
         let expenses := filter (in_category c) expenses in
         match expenses with
         | [] => print (NoExpensesInCategoryLine c) ;; ret None
         | _ => ret (Some expenses)
         end)
        (fun e => print (ErrorLine (message e)) ;; ret None)
  | None => ret (Some expenses)
  end.

Definition table_row (exp : Expense) : row :=
  (id exp, date exp, category exp, description exp, amount exp).

Definition list_expenses (category : option string) : Py unit :=
  expenses <- load_expenses ;;
  match expenses with
  | [] => print NoExpensesLine
  | _ =>
      filtered <- filter_category category expenses ;;
      match filtered with
      | None => ret tt
      | Some expenses => print (TableLine (map table_row expenses))
      end
  end.

Definition strptime (s : string) : result Datetime.datetime :=
  match Datetime.strptime s with
  | Some t => Ok t
  | None => Raise (ValueError "time data does not match format")
  end.

(** The list comprehension of the month filter.  [strptime] is called on
    every record, and a second time, for the year, on the records of the
    month ([and] evaluates its right operand only then); a date that does
    not parse raises out of the comprehension. *)
Fixpoint filter_month (month current_year : Z) (expenses : list Expense)
  : result (list Expense) :=
  match expenses with
  | [] => Ok []
  | exp :: rest =>
      rbind (strptime (date exp)) (fun t1 =>
      rbind (if Datetime.month t1 =? month
             then rbind (strptime (date exp))
                    (fun t2 => Ok (Datetime.year t2 =? current_year))
             else Ok false) (fun keep =>
      rbind (filter_month month current_year rest) (fun rest =>
      Ok (if keep then exp :: rest else rest))))
  end.

Definition sum_amounts (expenses : list Expense) : PyFloat.float :=
  PyFloat.sum (map amount expenses).

(** The loop [for cat in CATEGORIES] of the breakdown. *)
Fixpoint print_breakdown (cats : list string) (expenses : list Expense) : Py unit :=
  match cats with
  | [] => ret tt
  | cat :: cats =>
      let cat_total := sum_amounts (filter (in_category cat) expenses) in
      (if PyFloat.ltb PyFloat.zero cat_total
       then print (CategoryTotalLine cat cat_total)
       else ret tt) ;;
      print_breakdown cats expenses
  end.

(** The block "Filter by month if specified" of [get_summary].  Like
    [filter_category] it returns the list to go on with, or [None] when
    the function has printed a message and returned. *)
Definition filter_by_month (month : option Z) (expenses : list Expense)
  : Py (option (list Expense)) :=
  match truthy_int month with
  | Some month =>
      try_except
        (_ <- (if negb ((1 <=? month) && (month <=? 12))
               then raise (ValueError "")
               else ret tt) ;;
         now <- datetime_now ;;
         let current_year := Datetime.year now in
         expenses <- lift (filter_month month current_year expenses) ;;
         ret (Some expenses))
        (fun _ => print InvalidMonthLine ;; ret None)
  | None => ret (Some expenses)
  end.

(** The blocks "Calculate totals" and "Show summary based on filters". *)
Definition show_summary (month : option Z) (category : option string)
    (expenses : list Expense) : Py unit :=
  let total := sum_amounts expenses in
  match truthy_int month, truthy_str category with
  | Some m, Some c =>
      print (TotalMonthCategoryLine (Datetime.month_name m) c total)
  | Some m, None =>
      print (TotalMonthLine (Datetime.month_name m) total)
  | None, Some c =>
      print (TotalCategoryLine c total)
  | None, None =>
      print (TotalLine total) ;;
      print BreakdownLine ;;
      print_breakdown CATEGORIES expenses
  end.

Definition get_summary (month : option Z) (category : option string) : Py unit :=
  expenses <- load_expenses ;;
  match expenses with
  | [] => print NoExpensesLine
  | _ =>
      filtered <- filter_category category expenses ;;
      match filtered with
      | None => ret tt
      | Some expenses =>
          filtered <- filter_by_month month expenses ;;
          match filtered with
          | None => ret tt
          | Some expenses => show_summary month category expenses
          end
      end
  end.

Definition delete_expense (expense_id : Z) : Py unit :=
  expenses <- load_expenses ;;
  let initial_length := List.length expenses in
  let expenses := filter (fun exp => negb (id exp =? expense_id)) expenses in
  if Nat.eqb (List.length expenses) initial_length
  then print (NotFoundLine expense_id)
  else save_expenses expenses ;; print DeletedLine.

(** The parsed command line: the [args] namespace of [main]. *)
Inductive command : Type :=
| Add (description amount category : string)
| Update (expense_id : Z) (description amount category : option string)
| List (category : option string)
| Delete (expense_id : Z)
| Summary (month : option Z) (category : option string)
| NoCommand.

Definition is_None {A} (o : option A) : bool :=
  match o with
  | None => true
  | Some _ => false
  end.

Definition main (args : command) : Py unit :=
  match args with
  | Add description amount category => add_expense description amount category
  | Update expense_id description amount category =>
      if is_None description && is_None amount && is_None category
      then print NoFlagsLine
      else update_expense expense_id description amount category
  | List category => list_expenses category
  | Delete expense_id => delete_expense expense_id
  | Summary month category => get_summary month category
  | NoCommand => print HelpLine
  end.

(** ** Running the program *)

(** The list [load_expenses] returns for a given file. *)
Definition records (f : data_file) : list Expense :=
  match f with
  | Json expenses => expenses
  | _ => []
  end.

(** Running a function of the program on a given day and a given file,
    with nothing printed yet: the file it leaves and what it printed. *)
Definition run (c : Py unit) (now : Datetime.datetime) (f : data_file)
  : data_file * list line :=
  let w := snd (c {| clock := now; file := f; stdout := [] |}) in
  (file w, stdout w).

(** One invocation of the program: the day it runs and its command
    line. *)
Definition invoke (now : Datetime.datetime) (args : command) (f : data_file)
  : data_file * list line :=
  run (main args) now f.

(** A session is a sequence of invocations; it returns the final file
    and the output of each invocation. *)
Fixpoint session (runs : list (Datetime.datetime * command)) (f : data_file)
  : data_file * list (list line) :=
  match runs with
  | [] => (f, [])
  | (now, args) :: runs =>
      let '(f1, out) := invoke now args f in
      let '(f2, outs) := session runs f1 in
      (f2, out :: outs)
  end.

(** * Vocabulary of the statements *)

(** The definitions below are not part of the program: they name what
    the theorems talk about. *)

(** The record [add_expense] appends. *)
Definition new_record (now : Datetime.datetime) (f : data_file)
    (description : string) (amount : PyFloat.float) (category : string) : Expense :=
  {| id := get_next_id (records f);
     date := Datetime.strftime now;
     description := description;
     amount := amount;
     category := category |}.

(** The first record with a given id, with the records before and after
    it: where the loop of [update_expense] stops. *)
Fixpoint find_first (expense_id : Z) (expenses : list Expense)
  : option (list Expense * Expense * list Expense) :=
  match expenses with
  | [] => None
  | e :: rest =>
      if id e =? expense_id then Some ([], e, rest)
      else
        match find_first expense_id rest with
        | Some (before, x, after) => Some (e :: before, x, after)
        | None => None
        end
  end.

(** The world after one more line has been printed. *)
Definition printed (w : world) (l : line) : world :=
  {| clock := clock w; file := file w; stdout := stdout w ++ [l] |}.

(** The test of the month filter on one record: its date is in the
    given month of the given year. *)
Definition in_month (month current_year : Z) (exp : Expense) : bool :=
  match Datetime.strptime (date exp) with
  | Some t => (Datetime.month t =? month) && (Datetime.year t =? current_year)
  | None => false
  end.

(** The dates of a store are well formed when [strptime] reads each of
    them. *)
Definition dates_parse (expenses : list Expense) : Prop :=
  forall e, In e expenses -> Datetime.strptime (date e) <> None.

(** The lines of the breakdown: one per category with a positive
    subtotal, in the order of [CATEGORIES]. *)
Definition breakdown_lines (cats : list string) (expenses : list Expense)
  : list line :=
  flat_map
    (fun cat =>
       let cat_total := sum_amounts (filter (in_category cat) expenses) in
       if PyFloat.ltb PyFloat.zero cat_total
       then [CategoryTotalLine cat cat_total]
       else [])
    cats.

(** The lines [get_summary] prints once the filters have run. *)
Definition total_lines (month : option Z) (category : option string)
    (expenses : list Expense) : list line :=
  let total := sum_amounts expenses in
  match truthy_int month, truthy_str category with
  | Some m, Some c => [TotalMonthCategoryLine (Datetime.month_name m) c total]
  | Some m, None => [TotalMonthLine (Datetime.month_name m) total]
  | None, Some c => [TotalCategoryLine c total]
  | None, None =>
      TotalLine total :: BreakdownLine :: breakdown_lines CATEGORIES expenses
  end.

(** What [get_summary] prints from the month filter on, given the
    records that passed the category filter. *)
Definition month_lines (now : Datetime.datetime) (month : option Z)
    (category : option string) (expenses : list Expense) : list line :=
  match truthy_int month with
  | None => total_lines month category expenses
  | Some m =>
      if (1 <=? m) && (m <=? 12) then
        match filter_month m (Datetime.year now) expenses with
        | Ok kept => total_lines month category kept
        | Raise _ => [InvalidMonthLine]
        end
      else [InvalidMonthLine]
  end.

(** A command reports a failure when its whole output is one error
    line: the message of a [ValueError], or "No expense found". *)
Definition reports_failure (out : list line) : bool :=
  match out with
  | [ErrorLine _] => true
  | [NotFoundLine _] => true
  | _ => false
  end.

(** The value an optional argument gives a field: the argument when it
    is given, the prior value otherwise. *)
Definition given {A} (argument : option A) (prior : A) : A :=
  match argument with
  | Some v => v
  | None => prior
  end.

(** The category arguments that let [get_summary] reach the month
    filter on a given list: no category (or the empty string), or a
    category of the fixed set that some record has. *)
Definition category_passes (argument : option string)
    (expenses : list Expense) : Prop :=
  argument = None \/ argument = Some "" \/
  exists c e, argument = Some c /\ In c CATEGORIES /\
              In e expenses /\ category e = c.

(** The command lines that add or delete. *)
Definition adds_or_deletes (args : command) : Prop :=
  match args with
  | Add _ _ _ => True
  | Delete _ => True
  | _ => False
  end.

(** The invariant of the specification: the ids are pairwise distinct,
    every amount is above zero, every category is one of the eight. *)
Definition valid_record (e : Expense) : Prop :=
  PyFloat.ltb PyFloat.zero (amount e) = true /\ In (category e) CATEGORIES.

Definition store_invariant (expenses : list Expense) : Prop :=
  NoDup (map id expenses) /\ Forall valid_record expenses.

(** What the code does maintain: the ids are pairwise distinct, no
    amount is below or equal to zero, every category is one of the
    eight.  An amount that is not below or equal to zero is above zero
    or is a NaN ([not_leb_zero]). *)
Definition accepted_record (e : Expense) : Prop :=
  PyFloat.leb (amount e) PyFloat.zero = false /\ In (category e) CATEGORIES.

Definition maintained_invariant (expenses : list Expense) : Prop :=
  NoDup (map id expenses) /\ Forall accepted_record expenses.

(** A clock the program can run under: a date of the calendar with a
    four-digit year. *)
Definition running_clock (now : Datetime.datetime) : Prop :=
  Datetime.valid now = true /\ 1000 <= Datetime.year now.

(** The end of a date as [strftime] writes it: dash, month, dash, day. *)
Definition month_day_text (m d : Z) : list ascii :=
  list_ascii_of_string ("-" ++ Datetime.two_digits m ++ "-" ++ Datetime.two_digits d)%string.

(** The first match of the expression on that text reaches its end and
    gives back the month and the day. *)
Definition reads_back (m d : Z) : bool :=
  match Datetime.month_day (month_day_text m d) with
  | (m', d', []) :: _ => (m' =? m) && (d' =? d)
  | _ => false
  end.

(** The integers [1..n]. *)
Definition upto (n : nat) : list Z := map Z.of_nat (seq 1 n).

(** The test of the list comprehension of [delete_expense]: the record
    does not have the given id. *)
Definition other_id (expense_id : Z) (exp : Expense) : bool :=
  negb (id exp =? expense_id).

(** The ids of a list of records increase along the list. *)
Definition ids_increase (expenses : list Expense) : Prop :=
  StronglySorted Z.lt (map id expenses).

(** The command lines that only read the store: listing, summary, no
    command, and an update without any field to change. *)
Definition reads_only (args : command) : Prop :=
  match args with
  | List _ => True
  | Summary _ _ => True
  | NoCommand => True
  | Update _ None None None => True
  | _ => False
  end.

(** The subtotal of a category: the sum of the amounts of its records. *)
Definition subtotal (expenses : list Expense) (cat : string) : PyFloat.float :=
  sum_amounts (filter (in_category cat) expenses).

(** The ids of the store increase along the file and are at least 1. *)
Definition ids_in_order (expenses : list Expense) : Prop :=
  ids_increase expenses /\ forall e, In e expenses -> 1 <= id e.

(** ** Example data *)

Module Examples.

Definition jan5 : Datetime.datetime :=
  {| Datetime.year := 2024; Datetime.month := 1; Datetime.day := 5 |}.

(** The float [4.5], as [float("4.5")] returns it. *)
Definition f4_5 : PyFloat.float := S754_finite false 5066549580791808 (-50).

Definition f2_75 : PyFloat.float := S754_finite false 6192449487634432 (-51).

Definition f7_25 : PyFloat.float := S754_finite false 8162774324609024 (-50).

Definition coffee : Expense :=
  {| id := 1; date := "2024-01-05"; description := "Coffee";
     amount := f4_5; category := "Food" |}.

Definition bus : Expense :=
  {| id := 2; date := "2024-01-05"; description := "Bus";
     amount := f2_75; category := "Transportation" |}.

End Examples.

Module SummaryExample.

Definition jan2023 : Expense :=
  {| id := 3; date := "2023-01-20"; description := "Rent";
     amount := Examples.f2_75; category := "Housing" |}.

Definition store : data_file := Json [Examples.coffee; Examples.bus; jan2023].

End SummaryExample.

(** * Theorems *)

(** ** Worked examples *)

Module ExampleRuns.

Import Examples.

Example float_4_5 : PyFloat.of_string "4.5" = Some f4_5.
Proof. reflexivity. Qed.

Example float_tenth :
  PyFloat.of_string "0.1" = Some (S754_finite false 7205759403792794 (-56)).
Proof. reflexivity. Qed.

Example float_underscores : PyFloat.of_string " 1_0.5e1 " = PyFloat.of_string "105".
Proof. reflexivity. Qed.

Example float_overflow : PyFloat.of_string "1e400" = Some (S754_infinity false).
Proof. vm_compute. reflexivity. Qed.

Example float_rejects :
  map PyFloat.of_string [""; "."; "1e"; "1__0"; "_1"; "0x10"; "abc"; "1 2"]
  = [None; None; None; None; None; None; None; None].
Proof. reflexivity. Qed.

Example amount_minus_five : validate_amount "-5" = Raise (ValueError "Invalid amount").
Proof. reflexivity. Qed.

Example amount_zero : validate_amount "0.0" = Raise (ValueError "Invalid amount").
Proof. reflexivity. Qed.

Example category_bogus :
  validate_category "Bogus" = Raise (ValueError invalid_category_message).
Proof. reflexivity. Qed.

Example strptime_forms :
  map Datetime.strptime ["2024-01-05"; "2024-1-5"; "2024-02-30"; "2024-1-311"; "24-01-05"]
  = [Some jan5; Some jan5; None; None; None].
Proof. reflexivity. Qed.

(** The example of the specification: adding a bus fare to a store
    holding one coffee, then asking for the summary. *)
Example add_bus :
  invoke jan5 (Add "Bus" "2.75" "Transportation") (Json [coffee])
  = (Json [coffee; bus], [AddedLine 2]).
Proof. reflexivity. Qed.

Example summary_all :
  invoke jan5 (Summary None None) (Json [coffee; bus])
  = (Json [coffee; bus],
     [TotalLine f7_25; BreakdownLine;
      CategoryTotalLine "Food" f4_5; CategoryTotalLine "Transportation" f2_75]).
Proof. reflexivity. Qed.

Example delete_twice :
  session [(jan5, Delete 2); (jan5, Delete 2)] (Json [coffee; bus])
  = (Json [coffee], [[DeletedLine]; [NotFoundLine 2]]).
Proof. reflexivity. Qed.

(** The tests [if month:] and [if category:] take the month [0] and the
    empty category for arguments that were not given. *)
Example summary_month_zero :
  invoke jan5 (Summary (Some 0) None) (Json [coffee])
  = invoke jan5 (Summary None None) (Json [coffee]).
Proof. reflexivity. Qed.

Example list_empty_category :
  invoke jan5 (List (Some "")) (Json [coffee])
  = invoke jan5 (List None) (Json [coffee]).
Proof. reflexivity. Qed.

(** A date that [strptime] cannot read makes the month filter report
    an invalid month. *)
Example summary_unreadable_date :
  invoke jan5 (Summary (Some 1) None)
    (Json [coffee;
           {| id := 2; date := "05/01/2024"; description := "Bus";
              amount := f2_75; category := "Transportation" |}])
  = (Json [coffee;
           {| id := 2; date := "05/01/2024"; description := "Bus";
              amount := f2_75; category := "Transportation" |}],
     [InvalidMonthLine]).
Proof. reflexivity. Qed.

End ExampleRuns.

(** ** Reasoning about the monad *)

Ltac py_unfold :=
  unfold run, bind, ret, lift, raise, try_except, print, load_expenses,
    save_expenses, datetime_now in *.

Lemma load_expenses_records (w : world) :
  load_expenses w = (Ok (records (file w)), w).
Proof. unfold load_expenses, records. destruct (file w); reflexivity. Qed.

Lemma mem_In (c : string) (l : list string) : mem c l = true <-> In c l.
Proof.
  unfold mem. rewrite existsb_exists. split.
  - intros [x [Hin Heq]]. apply String.eqb_eq in Heq. now subst.
  - intros Hin. exists c. split; [assumption | apply String.eqb_refl].
Qed.

Lemma validate_category_Ok (c c' : string) :
  validate_category c = Ok c' <-> c' = c /\ In c CATEGORIES.
Proof.
  unfold validate_category. destruct (mem c CATEGORIES) eqn:Hm; cbn [negb].
  - apply mem_In in Hm. split.
    + intros H. inversion H; subst. split; [reflexivity | assumption].
    + intros [-> _]. reflexivity.
  - split; [discriminate |].
    intros [_ Hin]. apply mem_In in Hin. congruence.
Qed.

Lemma validate_category_Raise (c : string) (e : exn) :
  validate_category c = Raise e <->
  e = ValueError invalid_category_message /\ ~ In c CATEGORIES.
Proof.
  unfold validate_category. destruct (mem c CATEGORIES) eqn:Hm; cbn [negb].
  - apply mem_In in Hm. split; [discriminate | intros [_ Hn]; contradiction].
  - split.
    + intros H. inversion H. split; [reflexivity |].
      intros Hin. apply mem_In in Hin. congruence.
    + intros [-> _]. reflexivity.
Qed.

(** [validate_amount] raises nothing but "Invalid amount". *)
Lemma validate_amount_Raise (s : string) (e : exn) :
  validate_amount s = Raise e -> e = ValueError "Invalid amount".
Proof.
  unfold validate_amount, rcatch, rbind.
  destruct (PyFloat.of_string s) as [x |].
  - destruct (PyFloat.leb x PyFloat.zero); intros H; inversion H; reflexivity.
  - intros H; inversion H; reflexivity.
Qed.

Lemma validate_amount_Ok (s : string) (x : PyFloat.float) :
  validate_amount s = Ok x <->
  PyFloat.of_string s = Some x /\ PyFloat.leb x PyFloat.zero = false.
Proof.
  unfold validate_amount, rcatch, rbind.
  destruct (PyFloat.of_string s) as [y |].
  - destruct (PyFloat.leb y PyFloat.zero) eqn:Hle; split.
    + discriminate.
    + intros [H1 H2]. inversion H1; subst. congruence.
    + intros H. inversion H; subst. now split.
    + intros [H1 _]. inversion H1; subst. reflexivity.
  - split; [discriminate | intros [H _]; discriminate].
Qed.

(** ** What each command does to the file and prints *)

Section NextId.

Lemma fold_max_ge_init (l : list Z) (x : Z) : x <= fold_left Z.max l x.
Proof.
  revert x. induction l as [| y l IH]; intros x; simpl.
  - lia.
  - specialize (IH (Z.max x y)). lia.
Qed.

Lemma fold_max_ge_elem (l : list Z) (x y : Z) :
  In y l -> y <= fold_left Z.max l x.
Proof.
  revert x. induction l as [| z l IH]; intros x Hin; simpl in *.
  - contradiction.
  - destruct Hin as [-> | Hin].
    + pose proof (fold_max_ge_init l (Z.max x y)). lia.
    + now apply IH.
Qed.

Lemma fold_max_attained (l : list Z) (x : Z) :
  fold_left Z.max l x = x \/ In (fold_left Z.max l x) l.
Proof.
  revert x. induction l as [| z l IH]; intros x; simpl.
  - now left.
  - destruct (IH (Z.max x z)) as [H | H].
    + rewrite H. destruct (Z.max_spec x z) as [[_ ->] | [_ ->]]; auto.
    + auto.
Qed.

(** The next id is above every id of the list. *)
Lemma get_next_id_above (expenses : list Expense) (e : Expense) :
  In e expenses -> id e < get_next_id expenses.
Proof.
  destruct expenses as [| first others]; simpl; [contradiction |].
  intros [<- | Hin]; unfold max_id.
  - pose proof (fold_max_ge_init (map id others) (id first)). lia.
  - pose proof (fold_max_ge_elem (map id others) (id first) (id e)
                  (in_map id _ _ Hin)). lia.
Qed.

(** On a non-empty list it is the successor of one of the ids. *)
Lemma get_next_id_attained (expenses : list Expense) :
  expenses <> [] -> exists e, In e expenses /\ get_next_id expenses = id e + 1.
Proof.
  destruct expenses as [| first others]; [congruence | intros _].
  simpl. unfold max_id.
  destruct (fold_max_attained (map id others) (id first)) as [H | H].
  - exists first. rewrite H. auto.
  - apply in_map_iff in H. destruct H as [e [He Hin]].
    exists e. rewrite <- He. auto.
Qed.

End NextId.

Lemma add_expense_run (now : Datetime.datetime) (f : data_file)
    (description amount category : string) :
  run (add_expense description amount category) now f =
  match validate_amount amount with
  | Raise e => (f, [ErrorLine (message e)])
  | Ok a =>
      match validate_category category with
      | Raise e => (f, [ErrorLine (message e)])
      | Ok c => (Json (records f ++ [new_record now f description a c]),
                 [AddedLine (get_next_id (records f))])
      end
  end.
Proof.
  unfold add_expense. py_unfold. cbn.
  destruct (validate_amount amount) as [a | e]; [| reflexivity].
  destruct (validate_category category) as [c | e]; [| reflexivity].
  destruct f; reflexivity.
Qed.

Lemma find_first_Some (i : Z) (expenses before after : list Expense) (x : Expense) :
  find_first i expenses = Some (before, x, after) ->
  expenses = before ++ x :: after /\ id x = i /\
  (forall y, In y before -> id y <> i).
Proof.
  revert before. induction expenses as [| e rest IH]; intros before; simpl.
  - discriminate.
  - destruct (id e =? i) eqn:He.
    + intros H. inversion H; subst. apply Z.eqb_eq in He.
      repeat split; [assumption | intros y []].
    + destruct (find_first i rest) as [[[b y] a] |]; [| discriminate].
      intros H. inversion H; subst.
      destruct (IH b eq_refl) as [-> [Hid Hb]].
      apply Z.eqb_neq in He.
      repeat split; [assumption |].
      intros z [<- | Hz]; [assumption | now apply Hb].
Qed.

Lemma find_first_None (i : Z) (expenses : list Expense) :
  find_first i expenses = None <-> (forall y, In y expenses -> id y <> i).
Proof.
  induction expenses as [| e rest IH]; simpl.
  - split; [intros _ y [] | reflexivity].
  - destruct (id e =? i) eqn:He.
    + apply Z.eqb_eq in He. split; [discriminate |].
      intros H. exfalso. apply (H e); auto.
    + apply Z.eqb_neq in He.
      destruct (find_first i rest) as [[[b y] a] |].
      * split; [discriminate |]. intros H.
        assert (Hn : Some (b, y, a) = None) by (apply IH; intros z Hz; apply H; auto).
        discriminate.
      * split; [| reflexivity]. intros _ z [<- | Hz]; [assumption |].
        now apply (proj1 IH).
Qed.

Lemma update_loop_run (expenses seen : list Expense) (i : Z)
    (d a c : option string) (w : world) :
  update_loop seen expenses i d a c w =
  match find_first i expenses with
  | None => (Ok false, w)
  | Some (before, x, after) =>
      match update_fields x d a c with
      | Ok x' =>
          (Ok true,
           {| clock := clock w;
              file := Json (seen ++ before ++ x' :: after);
              stdout := stdout w ++ [UpdatedLine i] |})
      | Raise e => (Raise e, w)
      end
  end.
Proof.
  revert seen. induction expenses as [| e rest IH]; intros seen; simpl.
  - reflexivity.
  - destruct (id e =? i).
    + py_unfold. destruct (update_fields e d a c); reflexivity.
    + rewrite IH. destruct (find_first i rest) as [[[b y] aft] |]; [| reflexivity].
      destruct (update_fields y d a c); [| reflexivity].
      rewrite <- app_assoc. reflexivity.
Qed.

Lemma update_expense_run (now : Datetime.datetime) (f : data_file) (i : Z)
    (d a c : option string) :
  run (update_expense i d a c) now f =
  match find_first i (records f) with
  | None => (f, [NotFoundLine i])
  | Some (before, x, after) =>
      match update_fields x d a c with
      | Ok x' => (Json (before ++ x' :: after), [UpdatedLine i])
      | Raise e => (f, [ErrorLine (message e)])
      end
  end.
Proof.
  unfold update_expense, run, try_except, bind.
  rewrite load_expenses_records. cbv iota beta.
  rewrite update_loop_run. cbn [file].
  destruct (find_first i (records f)) as [[[b x] aft] |].
  - destruct (update_fields x d a c); reflexivity.
  - reflexivity.
Qed.

Lemma delete_expense_run (now : Datetime.datetime) (f : data_file) (i : Z) :
  run (delete_expense i) now f =
  let kept := filter (fun exp => negb (id exp =? i)) (records f) in
  if Nat.eqb (List.length kept) (List.length (records f))
  then (f, [NotFoundLine i])
  else (Json kept, [DeletedLine]).
Proof.
  unfold delete_expense, run, bind.
  rewrite load_expenses_records. cbn [file snd].
  destruct (Nat.eqb _ _); reflexivity.
Qed.

Lemma filter_category_run (category : option string) (expenses : list Expense)
    (w : world) :
  filter_category category expenses w =
  match truthy_str category with
  | None => (Ok (Some expenses), w)
  | Some c =>
      if mem c CATEGORIES then
        match filter (in_category c) expenses with
        | [] => (Ok None, printed w (NoExpensesInCategoryLine c))
        | kept => (Ok (Some kept), w)
        end
      else (Ok None, printed w (ErrorLine invalid_category_message))
  end.
Proof.
  unfold filter_category, validate_category.
  destruct (truthy_str category) as [c |]; [| reflexivity].
  py_unfold. destruct (mem c CATEGORIES); cbn [negb]; [| reflexivity].
  destruct (filter (in_category c) expenses); reflexivity.
Qed.

(** What [list_expenses] prints; it never writes the file. *)
Lemma list_expenses_run (now : Datetime.datetime) (f : data_file)
    (category : option string) :
  run (list_expenses category) now f =
  (f,
   match records f with
   | [] => [NoExpensesLine]
   | expenses =>
       match truthy_str category with
       | None => [TableLine (map table_row expenses)]
       | Some c =>
           if mem c CATEGORIES then
             match filter (in_category c) expenses with
             | [] => [NoExpensesInCategoryLine c]
             | kept => [TableLine (map table_row kept)]
             end
           else [ErrorLine invalid_category_message]
       end
   end).
Proof.
  unfold list_expenses, run, bind.
  rewrite load_expenses_records. cbv iota beta. cbn [file].
  destruct (records f) as [| e rest]; [reflexivity |].
  rewrite filter_category_run.
  destruct (truthy_str category) as [c |]; [| reflexivity].
  destruct (mem c CATEGORIES); [| reflexivity].
  destruct (filter (in_category c) (e :: rest)); reflexivity.
Qed.

Lemma filter_month_parse (month current_year : Z) (expenses : list Expense) :
  dates_parse expenses ->
  filter_month month current_year expenses
  = Ok (filter (in_month month current_year) expenses).
Proof.
  induction expenses as [| e rest IH]; intros Hp; simpl.
  - reflexivity.
  - assert (He : Datetime.strptime (date e) <> None) by (apply Hp; simpl; auto).
    rewrite IH by (intros x Hx; apply Hp; simpl; auto).
    unfold in_month, strptime.
    destruct (Datetime.strptime (date e)) as [t |]; [| congruence].
    simpl. destruct (Datetime.month t =? month); simpl.
    + destruct (Datetime.year t =? current_year); reflexivity.
    + reflexivity.
Qed.

(** A date that does not parse makes the comprehension raise. *)
Lemma filter_month_raise (month current_year : Z) (expenses : list Expense) :
  ~ dates_parse expenses ->
  exists e, filter_month month current_year expenses = Raise e.
Proof.
  induction expenses as [| x rest IH]; intros Hn.
  - exfalso. apply Hn. intros e [].
  - simpl. unfold strptime.
    destruct (Datetime.strptime (date x)) as [t |] eqn:Ht.
    + destruct IH as [e He].
      * intros Hp. apply Hn. intros y [<- | Hy]; [congruence | now apply Hp].
      * exists e. simpl. rewrite He.
        destruct (Datetime.month t =? month); reflexivity.
    + eexists. reflexivity.
Qed.

Lemma print_breakdown_run (cats : list string) (expenses : list Expense)
    (w : world) :
  print_breakdown cats expenses w =
  (Ok tt,
   {| clock := clock w; file := file w;
      stdout := stdout w ++ breakdown_lines cats expenses |}).
Proof.
  revert w. induction cats as [| cat cats IH]; intros w; simpl.
  - unfold ret. rewrite app_nil_r. destruct w; reflexivity.
  - unfold bind.
    destruct (PyFloat.ltb PyFloat.zero
                (sum_amounts (filter (in_category cat) expenses))).
    + unfold print. rewrite IH. cbn [clock file stdout].
      rewrite <- app_assoc. reflexivity.
    + unfold ret. rewrite IH. reflexivity.
Qed.

Lemma show_summary_run (month : option Z) (category : option string)
    (expenses : list Expense) (w : world) :
  show_summary month category expenses w =
  (Ok tt,
   {| clock := clock w; file := file w;
      stdout := stdout w ++ total_lines month category expenses |}).
Proof.
  unfold show_summary, total_lines.
  destruct (truthy_int month); destruct (truthy_str category);
    try reflexivity.
  unfold bind, print. rewrite print_breakdown_run. cbn [clock file stdout].
  rewrite <- !app_assoc. reflexivity.
Qed.

Lemma filter_by_month_run (month : option Z) (expenses : list Expense)
    (w : world) :
  filter_by_month month expenses w =
  match truthy_int month with
  | None => (Ok (Some expenses), w)
  | Some m =>
      if (1 <=? m) && (m <=? 12) then
        match filter_month m (Datetime.year (clock w)) expenses with
        | Ok kept => (Ok (Some kept), w)
        | Raise _ => (Ok None, printed w InvalidMonthLine)
        end
      else (Ok None, printed w InvalidMonthLine)
  end.
Proof.
  unfold filter_by_month.
  destruct (truthy_int month) as [m |]; [| reflexivity].
  py_unfold. destruct ((1 <=? m) && (m <=? 12)); cbn [negb]; [| reflexivity].
  destruct (filter_month m (Datetime.year (clock w)) expenses); reflexivity.
Qed.

Lemma run_of_world (c : Py unit) (now : Datetime.datetime) (f : data_file)
    (w' : world) :
  snd (c {| clock := now; file := f; stdout := [] |}) = w' ->
  run c now f = (file w', stdout w').
Proof. intros <-. reflexivity. Qed.

Ltac run_to_world :=
  match goal with
  | |- run ?c ?n ?f = (?f', ?out) =>
      apply (run_of_world c n f {| clock := n; file := f'; stdout := out |})
  end.

Lemma month_stage_run (now : Datetime.datetime) (f : data_file)
    (month : option Z) (category : option string) (expenses : list Expense) :
  snd ((filtered <- filter_by_month month expenses ;;
        match filtered with
        | None => ret tt
        | Some expenses => show_summary month category expenses
        end) {| clock := now; file := f; stdout := [] |})
  = {| clock := now; file := f;
       stdout := month_lines now month category expenses |}.
Proof.
  unfold bind, month_lines. rewrite filter_by_month_run. cbn [clock].
  destruct (truthy_int month) as [m |].
  - destruct ((1 <=? m) && (m <=? 12)); [| reflexivity].
    destruct (filter_month m (Datetime.year now) expenses); [| reflexivity].
    rewrite show_summary_run. reflexivity.
  - rewrite show_summary_run. reflexivity.
Qed.

(** What [get_summary] prints; it never writes the file. *)
Lemma get_summary_run (now : Datetime.datetime) (f : data_file)
    (month : option Z) (category : option string) :
  run (get_summary month category) now f =
  (f,
   match records f with
   | [] => [NoExpensesLine]
   | expenses =>
       match truthy_str category with
       | None => month_lines now month category expenses
       | Some c =>
           if mem c CATEGORIES then
             match filter (in_category c) expenses with
             | [] => [NoExpensesInCategoryLine c]
             | kept => month_lines now month category kept
             end
           else [ErrorLine invalid_category_message]
       end
   end).
Proof.
  run_to_world.
  unfold get_summary. unfold bind at 1.
  rewrite load_expenses_records. cbv iota beta. cbn [file].
  destruct (records f) as [| e rest]; [reflexivity |].
  unfold bind at 1. rewrite filter_category_run.
  destruct (truthy_str category) as [c |] eqn:Hc.
  - destruct (mem c CATEGORIES); [| reflexivity].
    destruct (filter (in_category c) (e :: rest)) as [| k kept]; [reflexivity |].
    apply (month_stage_run now f month category (k :: kept)).
  - apply (month_stage_run now f month category (e :: rest)).
Qed.

(** ** Adding: the id of the new record *)

Lemma get_next_id_empty : get_next_id [] = 1.
Proof. reflexivity. Qed.

(** C8. For every valid add (the amount and the category pass their
    validation), on every file and every day, the command appends one
    record and reports its id; that id is 1 when the store is empty, and
    otherwise it is one more than the id of some record of the store and
    above the id of every record of the store: one more than the maximum
    id present. *)
Theorem add_assigns_next_id (now : Datetime.datetime) (f : data_file)
    (description amount category : string) (a : PyFloat.float) (c : string) :
  validate_amount amount = Ok a ->
  validate_category category = Ok c ->
  exists n,
    run (add_expense description amount category) now f
    = (Json (records f ++
               [{| id := n; date := Datetime.strftime now;
                   description := description; amount := a; category := c |}]),
       [AddedLine n])
    /\ (records f = [] -> n = 1)
    /\ (records f <> [] ->
        (exists e, In e (records f) /\ n = id e + 1) /\
        (forall e, In e (records f) -> id e < n)).
Proof.
  intros Ha Hc. exists (get_next_id (records f)).
  rewrite add_expense_run, Ha, Hc. split; [reflexivity |]. split.
  - intros ->. apply get_next_id_empty.
  - intros Hne. split.
    + now apply get_next_id_attained.
    + intros e. apply get_next_id_above.
Qed.

Lemma add_assigns_next_id_witness :
  exists n,
    run (add_expense "Bus" "2.75" "Transportation") Examples.jan5
      (Json [Examples.coffee])
    = (Json (records (Json [Examples.coffee]) ++
               [{| id := n; date := Datetime.strftime Examples.jan5;
                   description := "Bus"; amount := Examples.f2_75;
                   category := "Transportation" |}]),
       [AddedLine n])
    /\ (records (Json [Examples.coffee]) = [] -> n = 1)
    /\ (records (Json [Examples.coffee]) <> [] ->
        (exists e, In e (records (Json [Examples.coffee])) /\ n = id e + 1) /\
        (forall e, In e (records (Json [Examples.coffee])) -> id e < n)).
Proof.
  apply (add_assigns_next_id Examples.jan5 (Json [Examples.coffee])
           "Bus" "2.75" "Transportation" Examples.f2_75 "Transportation");
    reflexivity.
Defined.

(** ** Validation of the amount *)

(** What the sign test of [validate_amount] lets through: a number above
    zero, or a NaN, which compares false with everything. *)
Lemma not_leb_zero (x : PyFloat.float) :
  PyFloat.leb x PyFloat.zero = false ->
  PyFloat.ltb PyFloat.zero x = true \/ x = PyFloat.nan.
Proof.
  unfold PyFloat.leb, PyFloat.ltb, PyFloat.zero, PyFloat.nan, SFleb, SFltb.
  destruct x as [s | [|] | | [|] m e]; simpl; auto; discriminate.
Qed.

(** C10. The string "nan" is accepted by [validate_amount] although its
    value is not a positive number: [float("nan")] is a NaN, the
    rejection test [amount <= 0] is false for it, so it is returned; it
    is not above zero; and [add_expense] then stores, on every file, a
    record whose amount is that NaN. *)
Theorem nan_amount_accepted :
  PyFloat.of_string "nan" = Some PyFloat.nan /\
  PyFloat.leb PyFloat.nan PyFloat.zero = false /\
  validate_amount "nan" = Ok PyFloat.nan /\
  PyFloat.ltb PyFloat.zero PyFloat.nan = false /\
  forall (now : Datetime.datetime) (f : data_file) (description : string),
    run (add_expense description "nan" "Food") now f
    = (Json (records f ++
               [{| id := get_next_id (records f);
                   date := Datetime.strftime now;
                   description := description;
                   amount := PyFloat.nan;
                   category := "Food" |}]),
       [AddedLine (get_next_id (records f))]).
Proof.
  repeat split; try reflexivity.
  intros now f description. rewrite add_expense_run. reflexivity.
Qed.

(** ** Failed commands leave the file alone *)

Lemma add_expense_invalid_amount (now : Datetime.datetime) (f : data_file)
    (description amount category : string) (e : exn) :
  validate_amount amount = Raise e ->
  run (add_expense description amount category) now f
  = (f, [ErrorLine "Invalid amount"]).
Proof.
  intros H. rewrite add_expense_run, H.
  apply validate_amount_Raise in H. subst e. reflexivity.
Qed.

Lemma add_expense_invalid_category (now : Datetime.datetime) (f : data_file)
    (description amount category : string) (a : PyFloat.float) :
  validate_amount amount = Ok a ->
  ~ In category CATEGORIES ->
  run (add_expense description amount category) now f
  = (f, [ErrorLine invalid_category_message]).
Proof.
  intros Ha Hc. rewrite add_expense_run, Ha.
  destruct (validate_category category) as [c | e] eqn:Hv.
  - apply validate_category_Ok in Hv. tauto.
  - apply validate_category_Raise in Hv. destruct Hv as [-> _]. reflexivity.
Qed.

Lemma update_expense_not_found (now : Datetime.datetime) (f : data_file)
    (i : Z) (d a c : option string) :
  (forall y, In y (records f) -> id y <> i) ->
  run (update_expense i d a c) now f = (f, [NotFoundLine i]).
Proof.
  intros H. rewrite update_expense_run.
  apply find_first_None in H. rewrite H. reflexivity.
Qed.

(** C5. On every file (missing and malformed files included), when
    [add_expense] reports a validation error, and when [update_expense]
    reports a validation error or that no record has the id, the file
    after the command is the file before it. *)
Theorem failure_keeps_file (now : Datetime.datetime) (f : data_file)
    (description amount category : string)
    (i : Z) (d a c : option string) :
  (reports_failure (snd (run (add_expense description amount category) now f)) = true ->
   fst (run (add_expense description amount category) now f) = f) /\
  (reports_failure (snd (run (update_expense i d a c) now f)) = true ->
   fst (run (update_expense i d a c) now f) = f).
Proof.
  split.
  - rewrite add_expense_run.
    destruct (validate_amount amount); [| reflexivity].
    destruct (validate_category category); [| reflexivity].
    discriminate.
  - rewrite update_expense_run.
    destruct (find_first i (records f)) as [[[before x] after] |]; [| reflexivity].
    destruct (update_fields x d a c); [discriminate | reflexivity].
Qed.

Lemma failure_keeps_file_witness :
  fst (run (add_expense "Tea" "-5" "Food") Examples.jan5 (Json [Examples.coffee]))
  = Json [Examples.coffee] /\
  fst (run (update_expense 1 (Some "Tea") (Some "3") (Some "Bogus"))
         Examples.jan5 (Json [Examples.coffee]))
  = Json [Examples.coffee].
Proof.
  destruct (failure_keeps_file Examples.jan5 (Json [Examples.coffee])
              "Tea" "-5" "Food" 1 (Some "Tea") (Some "3") (Some "Bogus"))
    as [Hadd Hupdate].
  split; [apply Hadd | apply Hupdate]; reflexivity.
Defined.

(** ** Updating: the frame *)

Lemma update_fields_Ok (x x' : Expense) (d a c : option string) :
  update_fields x d a c = Ok x' ->
  id x' = id x /\ date x' = date x /\
  description x' = given d (description x) /\
  match a with
  | Some s => validate_amount s = Ok (amount x')
  | None => amount x' = amount x
  end /\
  match c with
  | Some s => In s CATEGORIES /\ category x' = s
  | None => category x' = category x
  end.
Proof.
  unfold update_fields, rbind.
  destruct a as [s |]; [destruct (validate_amount s) as [v |] eqn:Hv;
                        [| discriminate] |];
    (destruct c as [t |];
     [destruct (validate_category t) as [u |] eqn:Hu; [| discriminate];
      apply validate_category_Ok in Hu; destruct Hu as [-> Hin] |]);
    intros H; inversion H; subst; clear H;
    destruct d;
    unfold set_category, set_amount, set_description, given;
    cbn [id date description amount category];
    repeat split; assumption || reflexivity.
Qed.

Lemma update_fields_valid (x : Expense) (d a c : option string) :
  (forall s, a = Some s -> exists v, validate_amount s = Ok v) ->
  (forall s, c = Some s -> In s CATEGORIES) ->
  exists x', update_fields x d a c = Ok x'.
Proof.
  intros Ha Hc. unfold update_fields, rbind.
  destruct a as [s |].
  - destruct (Ha s eq_refl) as [v ->].
    destruct c as [t |].
    + assert (Ht : validate_category t = Ok t)
        by (apply validate_category_Ok; auto).
      rewrite Ht. eauto.
    + eauto.
  - destruct c as [t |].
    + assert (Ht : validate_category t = Ok t)
        by (apply validate_category_Ok; auto).
      rewrite Ht. eauto.
    + eauto.
Qed.

Lemma find_first_In (i : Z) (expenses : list Expense) (y : Expense) :
  In y expenses -> id y = i ->
  exists before x after, find_first i expenses = Some (before, x, after).
Proof.
  intros Hin Hid.
  destruct (find_first i expenses) as [[[b x] aft] |] eqn:Hf; [eauto |].
  exfalso. apply (proj1 (find_first_None i expenses) Hf y Hin Hid).
Qed.

(** C6. On every store holding a record with the given id, and for
    every choice of the three optional arguments (each given or not, the
    given amount and category being valid), [update_expense] succeeds
    and rewrites the store with one record replaced, the first one with
    that id: the replaced record keeps its id and its date, each field
    whose argument was given takes the validated argument, each field
    whose argument was omitted keeps its value, and the records before
    and after it are the same records in the same order. *)
Theorem update_changes_given_fields_only (now : Datetime.datetime)
    (f : data_file) (i : Z) (d a c : option string) :
  (exists y, In y (records f) /\ id y = i) ->
  (forall s, a = Some s -> exists v, validate_amount s = Ok v) ->
  (forall s, c = Some s -> In s CATEGORIES) ->
  exists before x after x',
    records f = before ++ x :: after /\
    id x = i /\ (forall y, In y before -> id y <> i) /\
    run (update_expense i d a c) now f
    = (Json (before ++ x' :: after), [UpdatedLine i]) /\
    id x' = id x /\ date x' = date x /\
    description x' = given d (description x) /\
    match a with
    | Some s => validate_amount s = Ok (amount x')
    | None => amount x' = amount x
    end /\
    category x' = given c (category x).
Proof.
  intros [y [Hin Hid]] Ha Hc.
  destruct (find_first_In i (records f) y Hin Hid) as [before [x [after Hf]]].
  destruct (update_fields_valid x d a c Ha Hc) as [x' Hx'].
  exists before, x, after, x'.
  destruct (find_first_Some _ _ _ _ _ Hf) as [Hsplit [Hx Hbefore]].
  destruct (update_fields_Ok _ _ _ _ _ Hx') as [H1 [H2 [H3 [H4 H5]]]].
  rewrite update_expense_run, Hf, Hx'.
  repeat (split; [assumption || reflexivity |]).
  destruct c as [s |]; simpl; [apply H5 | assumption].
Qed.

Lemma update_changes_given_fields_only_witness :
  exists before x after x',
    records (Json [Examples.coffee; Examples.bus]) = before ++ x :: after /\
    id x = 2 /\ (forall y, In y before -> id y <> 2) /\
    run (update_expense 2 None (Some "4.5") None) Examples.jan5
      (Json [Examples.coffee; Examples.bus])
    = (Json (before ++ x' :: after), [UpdatedLine 2]) /\
    id x' = id x /\ date x' = date x /\
    description x' = given None (description x) /\
    validate_amount "4.5" = Ok (amount x') /\
    category x' = given None (category x).
Proof.
  apply (update_changes_given_fields_only Examples.jan5
           (Json [Examples.coffee; Examples.bus]) 2 None (Some "4.5") None).
  - exists Examples.bus. split; [simpl; auto | reflexivity].
  - intros s H. inversion H; subst. exists Examples.f4_5. reflexivity.
  - intros s H. discriminate H.
Defined.

(** ** Listing *)

Lemma category_truthy (c : string) :
  In c CATEGORIES -> truthy_str (Some c) = Some c.
Proof.
  intros Hin. apply mem_In in Hin. unfold truthy_str.
  destruct (String.eqb c "") eqn:He; [| reflexivity].
  apply String.eqb_eq in He. subst c. discriminate Hin.
Qed.

Lemma nonempty_truthy (c : string) : c <> "" -> truthy_str (Some c) = Some c.
Proof.
  intros Hc. unfold truthy_str.
  destruct (String.eqb c "") eqn:He; [| reflexivity].
  apply String.eqb_eq in He. contradiction.
Qed.

Lemma not_In_mem (c : string) : ~ In c CATEGORIES -> mem c CATEGORIES = false.
Proof.
  intros Hn. destruct (mem c CATEGORIES) eqn:Hm; [| reflexivity].
  apply mem_In in Hm. contradiction.
Qed.

Lemma invalid_category_message_text :
  invalid_category_message =
  "Invalid category. Available categories: Food, Transportation, Housing, Utilities, Entertainment, Shopping, Healthcare, Other".
Proof. reflexivity. Qed.

(** C2 fails as stated: on an empty store (here a missing file)
    [list_expenses] prints "No expenses found" and returns before it
    looks at the category, so an unknown category is not reported. *)
Lemma list_unknown_category_empty_store :
  ~ (forall (now : Datetime.datetime) (f : data_file) (c : string),
       ~ In c CATEGORIES ->
       run (list_expenses (Some c)) now f
       = (f, [ErrorLine invalid_category_message])).
Proof.
  intros H.
  assert (Hbogus : ~ In "Bogus" CATEGORIES)
    by (intros Hin; apply mem_In in Hin; discriminate Hin).
  specialize (H Examples.jan5 NoFile "Bogus" Hbogus).
  discriminate H.
Qed.

(** C2, amended. When the store is not empty and [list_expenses] is
    given a category that is a non-empty string outside the fixed set,
    the category is validated before anything is filtered: the command
    prints the one error line of [validate_category], whose message
    enumerates the eight valid categories, prints no table, and leaves
    the file as it was. *)
Theorem list_unknown_category (now : Datetime.datetime) (f : data_file)
    (c : string) :
  records f <> [] ->
  c <> "" ->
  ~ In c CATEGORIES ->
  run (list_expenses (Some c)) now f = (f, [ErrorLine invalid_category_message])
  /\ invalid_category_message =
     "Invalid category. Available categories: Food, Transportation, Housing, Utilities, Entertainment, Shopping, Healthcare, Other".
Proof.
  intros Hne Hc Hn. split; [| reflexivity].
  rewrite list_expenses_run.
  destruct (records f) as [| e rest]; [congruence |].
  rewrite (nonempty_truthy c Hc), (not_In_mem c Hn). reflexivity.
Qed.

Lemma list_unknown_category_witness :
  run (list_expenses (Some "Bogus")) Examples.jan5 (Json [Examples.coffee])
  = (Json [Examples.coffee], [ErrorLine invalid_category_message])
  /\ invalid_category_message =
     "Invalid category. Available categories: Food, Transportation, Housing, Utilities, Entertainment, Shopping, Healthcare, Other".
Proof.
  apply (list_unknown_category Examples.jan5 (Json [Examples.coffee]) "Bogus").
  - discriminate.
  - discriminate.
  - intros Hin. apply mem_In in Hin. discriminate Hin.
Defined.

(** ** Summary: the month *)

(** C3 fails as stated: on an empty store [get_summary] prints "No
    expenses found" and returns before it looks at the month. *)
Lemma summary_month_13_empty_store :
  ~ (forall (now : Datetime.datetime) (f : data_file) (m : Z)
            (category : option string),
       ~ (1 <= m <= 12) ->
       snd (run (get_summary (Some m) category) now f) = [InvalidMonthLine]).
Proof.
  intros H.
  specialize (H Examples.jan5 (Json []) 13 None ltac:(lia)).
  discriminate H.
Qed.

Lemma filter_in_category_nonempty (c : string) (expenses : list Expense)
    (e : Expense) :
  In e expenses -> category e = c -> filter (in_category c) expenses <> [].
Proof.
  intros Hin Hc Hnil.
  assert (H : In e (filter (in_category c) expenses)).
  { apply filter_In. split; [assumption |].
    unfold in_category. rewrite Hc. apply String.eqb_refl. }
  rewrite Hnil in H. contradiction.
Qed.

(** C3, amended. When the store is not empty, the month is a non-zero
    number outside 1..12, and the category filter lets the command
    through (no category is given, or a category of the fixed set that
    at least one record has), [get_summary] prints the one line "Error:
    Invalid month", reports no total and leaves the file as it was. *)
Theorem summary_invalid_month (now : Datetime.datetime) (f : data_file)
    (m : Z) (category : option string) :
  records f <> [] ->
  m <> 0 ->
  ~ (1 <= m <= 12) ->
  category_passes category (records f) ->
  run (get_summary (Some m) category) now f = (f, [InvalidMonthLine]).
Proof.
  intros Hne Hm0 Hm Hcat. rewrite get_summary_run. f_equal.
  destruct (records f) as [| e0 rest] eqn:Hrec; [congruence |].
  assert (Hmonth : forall es, month_lines now (Some m) category es = [InvalidMonthLine]).
  { intros es. unfold month_lines, truthy_int.
    destruct (m =? 0) eqn:H0; [apply Z.eqb_eq in H0; contradiction |].
    destruct ((1 <=? m) && (m <=? 12)) eqn:Hr; [| reflexivity].
    apply andb_true_iff in Hr. destruct Hr as [H1 H2].
    apply Z.leb_le in H1, H2. lia. }
  destruct Hcat as [-> | [-> | [c [e [-> [Hc [Hin Hce]]]]]]].
  - apply Hmonth.
  - apply Hmonth.
  - rewrite (category_truthy c Hc), (proj2 (mem_In c CATEGORIES) Hc).
    pose proof (filter_in_category_nonempty c (e0 :: rest) e Hin Hce) as Hk.
    cbv zeta.
    destruct (filter (in_category c) (e0 :: rest)); [congruence |].
    apply Hmonth.
Qed.

Lemma summary_invalid_month_witness :
  run (get_summary (Some 13) (Some "Food")) Examples.jan5 (Json [Examples.coffee])
  = (Json [Examples.coffee], [InvalidMonthLine]).
Proof.
  apply (summary_invalid_month Examples.jan5 (Json [Examples.coffee]) 13 (Some "Food")).
  - discriminate.
  - lia.
  - lia.
  - right. right. exists "Food", Examples.coffee.
    repeat split; simpl; auto.
Defined.

Lemma valid_month_truthy (m : Z) :
  1 <= m <= 12 ->
  truthy_int (Some m) = Some m /\ (1 <=? m) && (m <=? 12) = true.
Proof.
  intros Hm. unfold truthy_int.
  destruct (m =? 0) eqn:H0; [apply Z.eqb_eq in H0; lia |].
  split; [reflexivity |].
  apply andb_true_iff. split; apply Z.leb_le; lia.
Qed.

Lemma in_month_spec (m current_year : Z) (e : Expense) :
  in_month m current_year e = true <->
  exists t, Datetime.strptime (date e) = Some t /\
            Datetime.month t = m /\ Datetime.year t = current_year.
Proof.
  unfold in_month. destruct (Datetime.strptime (date e)) as [t |].
  - rewrite andb_true_iff, !Z.eqb_eq. split.
    + intros [H1 H2]. exists t. auto.
    + intros [t' [Ht [H1 H2]]]. inversion Ht; subst. auto.
  - split; [discriminate | intros [t [Ht _]]; discriminate].
Qed.

(** C4 fails as stated: on a store holding a date that [strptime] does
    not read, the month filter raises inside the [try] block of the
    month and [get_summary] prints "Error: Invalid month" for a month of
    1..12, with no total.  (On the empty store it prints "No expenses
    found", with no total either.) *)
Lemma summary_month_unreadable_date :
  ~ (forall (now : Datetime.datetime) (f : data_file) (m : Z),
       1 <= m <= 12 ->
       snd (run (get_summary (Some m) None) now f)
       = [TotalMonthLine (Datetime.month_name m)
            (sum_amounts
               (filter (in_month m (Datetime.year now)) (records f)))]).
Proof.
  intros H.
  assert (Hm : 1 <= 1 <= 12) by lia.
  specialize (H Examples.jan5
                (Json [Examples.coffee;
                       {| id := 2; date := "05/01/2024"; description := "Bus";
                          amount := Examples.f2_75;
                          category := "Transportation" |}]) 1 Hm).
  discriminate H.
Qed.

(** C4, amended. For every store whose dates are well formed and every month
    [m] of 1..12, [get_summary] with that month and no category leaves
    the file as it was and, the store holding at least one record,
    prints one line with the total of the amounts of the kept records;
    a record is kept exactly when it is in the store, its date is in
    month [m] and the year of its date is the year of the clock.  So a
    record of the same month of another year is not in the total.  (On
    the empty store there is nothing to add up and the line is "No
    expenses found".) *)
Theorem summary_month_current_year (now : Datetime.datetime) (f : data_file)
    (m : Z) :
  dates_parse (records f) ->
  1 <= m <= 12 ->
  let kept := filter (in_month m (Datetime.year now)) (records f) in
  run (get_summary (Some m) None) now f
  = (f, match records f with
        | [] => [NoExpensesLine]
        | _ => [TotalMonthLine (Datetime.month_name m) (sum_amounts kept)]
        end)
  /\ forall e, In e kept <->
               In e (records f) /\
               exists t, Datetime.strptime (date e) = Some t /\
                         Datetime.month t = m /\
                         Datetime.year t = Datetime.year now.
Proof.
  intros Hp Hm kept. split.
  - rewrite get_summary_run. f_equal.
    destruct (records f) as [| e rest] eqn:Hrec; [reflexivity |].
    cbn [truthy_str]. unfold month_lines, total_lines.
    destruct (valid_month_truthy m Hm) as [-> ->].
    rewrite filter_month_parse by assumption. reflexivity.
  - intros e. unfold kept. rewrite filter_In, in_month_spec. reflexivity.
Qed.

Lemma summary_month_current_year_witness :
  run (get_summary (Some 1) None) Examples.jan5 SummaryExample.store
  = (SummaryExample.store, [TotalMonthLine "January" Examples.f7_25]).
Proof.
  refine (proj1 (summary_month_current_year Examples.jan5 SummaryExample.store 1 _ _)).
  - intros e [<- | [<- | [<- | []]]]; discriminate.
  - lia.
Defined.

(** ** Summary: the totals *)

(** C7 fails as stated: for a valid category that no record has,
    [get_summary] reports no total (so not a total of zero); it prints
    "No expenses found in category" and returns. *)
Lemma summary_category_without_record :
  ~ (forall (now : Datetime.datetime) (f : data_file),
       (exists rest,
          snd (run (get_summary None None) now f)
          = TotalLine (sum_amounts (records f)) :: rest) /\
       (forall c, In c CATEGORIES ->
          snd (run (get_summary None (Some c)) now f)
          = [TotalCategoryLine c
               (sum_amounts (filter (in_category c) (records f)))])).
Proof.
  intros H.
  destruct (H Examples.jan5 (Json [Examples.coffee])) as [_ Hc].
  assert (Hin : In "Housing" CATEGORIES) by (apply mem_In; reflexivity).
  specialize (Hc "Housing" Hin). discriminate Hc.
Qed.

(** C7, amended. For every store holding at least one record,
    [get_summary] without a filter prints the total of the amounts of
    all the records (followed by the breakdown), and for every category
    [c] of the fixed set that at least one record has, [get_summary]
    with that category prints the total of the amounts of exactly the
    records whose category is [c]; when no record has category [c] it
    prints "No expenses found in category" and no total.  The file is
    left as it was.  The total is Python's [sum] of the amounts in the
    order of the file. *)
Theorem summary_totals (now : Datetime.datetime) (f : data_file) :
  records f <> [] ->
  run (get_summary None None) now f
  = (f, TotalLine (sum_amounts (records f)) :: BreakdownLine
          :: breakdown_lines CATEGORIES (records f))
  /\ forall c, In c CATEGORIES ->
       run (get_summary None (Some c)) now f
       = (f, match filter (in_category c) (records f) with
             | [] => [NoExpensesInCategoryLine c]
             | kept => [TotalCategoryLine c (sum_amounts kept)]
             end)
       /\ forall e, In e (filter (in_category c) (records f)) <->
                    In e (records f) /\ category e = c.
Proof.
  intros Hne. split.
  - rewrite get_summary_run.
    destruct (records f) as [| e rest]; [congruence | reflexivity].
  - intros c Hc. split.
    + rewrite get_summary_run. f_equal.
      destruct (records f) as [| e rest]; [congruence |].
      rewrite (category_truthy c Hc), (proj2 (mem_In c CATEGORIES) Hc).
      cbv zeta.
      destruct (filter (in_category c) (e :: rest)); [reflexivity |].
      unfold month_lines, total_lines. cbn [truthy_int].
      rewrite (category_truthy c Hc). reflexivity.
    + intros e. rewrite filter_In. unfold in_category.
      rewrite String.eqb_eq. reflexivity.
Qed.

Lemma summary_totals_witness :
  run (get_summary None None) Examples.jan5 (Json [Examples.coffee; Examples.bus])
  = (Json [Examples.coffee; Examples.bus],
     [TotalLine Examples.f7_25; BreakdownLine;
      CategoryTotalLine "Food" Examples.f4_5;
      CategoryTotalLine "Transportation" Examples.f2_75])
  /\ run (get_summary None (Some "Food")) Examples.jan5
       (Json [Examples.coffee; Examples.bus])
     = (Json [Examples.coffee; Examples.bus],
        [TotalCategoryLine "Food" Examples.f4_5]).
Proof.
  assert (Hstore : records (Json [Examples.coffee; Examples.bus]) <> [])
    by discriminate.
  destruct (summary_totals Examples.jan5 (Json [Examples.coffee; Examples.bus])
              Hstore) as [Hall Hcat].
  split.
  - exact Hall.
  - apply (Hcat "Food"). simpl. auto.
Defined.

(** ** Ids over a session *)

(** Whatever [add_expense] prints, it is an error line or the next id
    of the store it ran on. *)
Lemma add_expense_output (now : Datetime.datetime) (f : data_file)
    (description amount category : string) (n : Z) :
  snd (run (add_expense description amount category) now f) = [AddedLine n] ->
  n = get_next_id (records f).
Proof.
  rewrite add_expense_run.
  destruct (validate_amount amount); [| discriminate].
  destruct (validate_category category); [| discriminate].
  intros H. inversion H. reflexivity.
Qed.

(** C1 fails as stated: the next id is computed from the records
    present, so deleting the record with the greatest id frees that id.
    Here the first add on a missing file assigns id 1, the delete
    removes it, and the next add assigns id 1 again. *)
Lemma deleted_greatest_id_is_reused :
  ~ (forall (f : data_file) (now1 now2 : Datetime.datetime) (i : Z)
            (runs : list (Datetime.datetime * command))
            (description amount category : string),
       snd (invoke now1 (Delete i) f) = [DeletedLine] ->
       Forall (fun r => adds_or_deletes (snd r)) runs ->
       snd (invoke now2 (Add description amount category)
              (fst (session runs (fst (invoke now1 (Delete i) f)))))
       <> [AddedLine i]).
Proof.
  intros H.
  apply (H (fst (invoke Examples.jan5 (Add "Coffee" "4.5" "Food") NoFile))
           Examples.jan5 Examples.jan5 1 [] "Bus" "2.75" "Transportation").
  - reflexivity.
  - constructor.
  - reflexivity.
Qed.

(** The id [i] is the next one for a list of records: the list is empty
    and [i] is 1, or [i] is one more than the id of a record of the list
    and above the id of every record of the list. *)
Lemma next_id_characterised (expenses : list Expense) (i : Z) :
  i = get_next_id expenses <->
  (expenses = [] /\ i = 1) \/
  ((exists e, In e expenses /\ i = id e + 1) /\
   (forall e, In e expenses -> id e < i)).
Proof.
  split.
  - intros ->. destruct expenses as [| x rest] eqn:Hexp.
    + left. split; reflexivity.
    + right. rewrite <- Hexp. split.
      * apply get_next_id_attained. rewrite Hexp. discriminate.
      * intros e. apply get_next_id_above.
  - intros [[-> ->] | [[e [He Hi]] Habove]].
    + reflexivity.
    + assert (Hne : expenses <> []) by (intros ->; contradiction).
      destruct (get_next_id_attained expenses Hne) as [e' [He' Hnext]].
      pose proof (get_next_id_above expenses e He).
      pose proof (Habove e' He'). lia.
Qed.

(** C1, amended. Take any store, delete a record of id [i] from it, run
    any sequence of commands, then add.  If at the time of the add the
    store holds a record whose id is [i] or more, the add does not
    assign [i]: an add assigns an id above every id present.  And a
    valid add assigns [i] again exactly when, at the time of the add,
    the store is empty and [i] is 1, or [i] is one more than the
    greatest id present. *)
Theorem deleted_id_not_reused_below_greatest
    (f : data_file) (now1 now2 : Datetime.datetime) (i : Z)
    (runs : list (Datetime.datetime * command))
    (description amount category : string) :
  snd (invoke now1 (Delete i) f) = [DeletedLine] ->
  ((exists e, In e (records (fst (session runs (fst (invoke now1 (Delete i) f)))))
              /\ i <= id e) ->
   snd (invoke now2 (Add description amount category)
          (fst (session runs (fst (invoke now1 (Delete i) f)))))
   <> [AddedLine i])
  /\ forall a c,
       validate_amount amount = Ok a ->
       validate_category category = Ok c ->
       (snd (invoke now2 (Add description amount category)
               (fst (session runs (fst (invoke now1 (Delete i) f)))))
        = [AddedLine i]
        <->
        (records (fst (session runs (fst (invoke now1 (Delete i) f)))) = [] /\ i = 1)
        \/
        ((exists e, In e (records (fst (session runs (fst (invoke now1 (Delete i) f)))))
                    /\ i = id e + 1) /\
         (forall e, In e (records (fst (session runs (fst (invoke now1 (Delete i) f)))))
                    -> id e < i))).
Proof.
  intros _.
  remember (fst (session runs (fst (invoke now1 (Delete i) f)))) as f2 eqn:Hf2.
  clear Hf2. split.
  - intros [e [Hin Hle]] Hout.
    unfold invoke in Hout. cbn [main] in Hout.
    apply add_expense_output in Hout.
    pose proof (get_next_id_above _ _ Hin) as Hgt. lia.
  - intros a c Ha Hc. rewrite <- next_id_characterised.
    unfold invoke. cbn [main]. rewrite add_expense_run, Ha, Hc. cbn [snd].
    split.
    + intros H. inversion H. reflexivity.
    + intros ->. reflexivity.
Qed.

Lemma deleted_id_not_reused_below_greatest_witness :
  snd (invoke Examples.jan5 (Add "Tea" "3" "Food")
         (fst (session []
                 (fst (invoke Examples.jan5 (Delete 1)
                         (Json [Examples.coffee; Examples.bus]))))))
  <> [AddedLine 1]
  /\ snd (invoke Examples.jan5 (Add "Tea" "3" "Food")
            (fst (session []
                    (fst (invoke Examples.jan5 (Delete 2)
                            (Json [Examples.coffee; Examples.bus]))))))
     = [AddedLine 2].
Proof.
  split.
  - refine (proj1 (deleted_id_not_reused_below_greatest
                     (Json [Examples.coffee; Examples.bus]) Examples.jan5
                     Examples.jan5 1 [] "Tea" "3" "Food" _) _).
    + reflexivity.
    + exists Examples.bus. split; [simpl; auto | simpl; lia].
  - refine (proj2 (proj2 (deleted_id_not_reused_below_greatest
                            (Json [Examples.coffee; Examples.bus]) Examples.jan5
                            Examples.jan5 2 [] "Tea" "3" "Food" _)
                     (S754_finite false 6755399441055744 (-51)) "Food" _ _) _).
    + reflexivity.
    + reflexivity.
    + reflexivity.
    + right. split.
      * exists Examples.coffee. split; [simpl; auto | reflexivity].
      * intros e [<- | []]. simpl. lia.
Defined.

(** ** The invariant of the store *)

(** C9 at its failing input: the store of a missing file satisfies the
    invariant, and after [add_expense] with the amount "nan" it does
    not: the record added has an amount that is not above zero. *)
Theorem add_nan_breaks_invariant :
  store_invariant (records NoFile) /\
  run (add_expense "Tea" "nan" "Food") Examples.jan5 NoFile
  = (Json [{| id := 1; date := "2024-01-05"; description := "Tea";
              amount := PyFloat.nan; category := "Food" |}],
     [AddedLine 1]) /\
  ~ store_invariant
      (records (fst (run (add_expense "Tea" "nan" "Food") Examples.jan5 NoFile))).
Proof.
  split; [| split].
  - split; constructor.
  - reflexivity.
  - intros [_ Hall]. cbn in Hall. inversion Hall as [| x l [Hpos _] _]; subst.
    discriminate Hpos.
Qed.

Section Maintained.

Lemma NoDup_snoc (l : list Z) (n : Z) :
  NoDup l -> ~ In n l -> NoDup (l ++ [n]).
Proof.
  induction l as [| x l IH]; intros Hnd Hn; simpl.
  - constructor; [intros [] | constructor].
  - inversion Hnd as [| y l' Hx Hl]; subst. constructor.
    + rewrite in_app_iff. intros [H | [H | []]]; [contradiction |].
      apply Hn. simpl. auto.
    + apply IH; [assumption |]. intros H. apply Hn. simpl. auto.
Qed.

Lemma NoDup_map_filter (p : Expense -> bool) (l : list Expense) :
  NoDup (map id l) -> NoDup (map id (filter p l)).
Proof.
  induction l as [| x l IH]; intros Hnd; simpl.
  - constructor.
  - inversion Hnd as [| y l' Hx Hl]; subst.
    destruct (p x); simpl; [| now apply IH].
    constructor; [| now apply IH].
    rewrite in_map_iff. intros [e [He Hin]].
    apply Hx. rewrite in_map_iff. exists e. split; [assumption |].
    apply filter_In in Hin. tauto.
Qed.

Lemma Forall_filter (P : Expense -> Prop) (p : Expense -> bool)
    (l : list Expense) :
  Forall P l -> Forall P (filter p l).
Proof.
  rewrite !Forall_forall. intros H x Hx. apply filter_In in Hx. apply H, Hx.
Qed.

Variable now : Datetime.datetime.
Variable f : data_file.
Hypothesis Hinv : maintained_invariant (records f).

Lemma add_maintains (d s t : string) :
  maintained_invariant (records (fst (run (add_expense d s t) now f))).
Proof.
  rewrite add_expense_run.
  destruct (validate_amount s) as [a |] eqn:Ha; [| exact Hinv].
  destruct (validate_category t) as [c |] eqn:Hc; [| exact Hinv].
  destruct Hinv as [Hnd Hall]. cbn [fst records]. split.
  - rewrite map_app. apply NoDup_snoc; [assumption |].
    cbn [map new_record id]. rewrite in_map_iff. intros [e [He Hin]].
    pose proof (get_next_id_above _ _ Hin). lia.
  - apply Forall_app. split; [assumption |].
    constructor; [| constructor]. split; cbn [new_record amount category].
    + apply validate_amount_Ok in Ha. tauto.
    + apply validate_category_Ok in Hc. destruct Hc as [-> Hc]. assumption.
Qed.

Lemma update_maintains (i : Z) (d a c : option string) :
  maintained_invariant
    (records (fst (run (update_expense i d a c) now f))).
Proof.
  rewrite update_expense_run.
  destruct (find_first i (records f)) as [[[before x] after] |] eqn:Hf;
    [| exact Hinv].
  destruct (update_fields x d a c) as [x' |] eqn:Hx'; [| exact Hinv].
  destruct (find_first_Some _ _ _ _ _ Hf) as [Hsplit _].
  destruct (update_fields_Ok _ _ _ _ _ Hx') as [H1 [_ [_ [H4 H5]]]].
  destruct Hinv as [Hnd Hall]. rewrite Hsplit in Hnd, Hall.
  cbn [fst records]. split.
  - rewrite map_app in *. cbn [map] in *. rewrite H1. assumption.
  - apply Forall_app in Hall. destruct Hall as [Hb Hxa].
    inversion Hxa as [| y l [Hxamount Hxcat] Ha']; subst.
    apply Forall_app. split; [assumption |].
    constructor; [| assumption]. split.
    + destruct a as [s |].
      * apply validate_amount_Ok in H4. tauto.
      * rewrite H4. assumption.
    + destruct c as [s |].
      * destruct H5 as [Hs ->]. assumption.
      * rewrite H5. assumption.
Qed.

Lemma delete_maintains (i : Z) :
  maintained_invariant (records (fst (run (delete_expense i) now f))).
Proof.
  rewrite delete_expense_run. cbv zeta.
  destruct (Nat.eqb _ _); [exact Hinv |].
  destruct Hinv as [Hnd Hall]. cbn [fst records]. split.
  - now apply NoDup_map_filter.
  - now apply Forall_filter.
Qed.

(** Every command line keeps the maintained invariant. *)
Lemma invoke_maintains (args : command) :
  maintained_invariant (records (fst (invoke now args f))).
Proof.
  unfold invoke. destruct args as [d a c | i d a c | c | i | m c |]; cbn [main].
  - apply add_maintains.
  - destruct (is_None d && is_None a && is_None c).
    + exact Hinv.
    + apply update_maintains.
  - rewrite list_expenses_run. exact Hinv.
  - apply delete_maintains.
  - rewrite get_summary_run. exact Hinv.
  - exact Hinv.
Qed.

End Maintained.

Lemma session_cons (now : Datetime.datetime) (args : command)
    (runs : list (Datetime.datetime * command)) (f : data_file) :
  fst (session ((now, args) :: runs) f)
  = fst (session runs (fst (invoke now args f))).
Proof.
  cbn [session].
  destruct (invoke now args f) as [f1 out]. cbn [fst].
  destruct (session runs f1) as [f2 outs]. reflexivity.
Qed.

(** The maintained invariant holds all along a session started from a
    store that has it, in particular from a missing file. *)
Lemma session_maintains (runs : list (Datetime.datetime * command))
    (f : data_file) :
  maintained_invariant (records f) ->
  maintained_invariant (records (fst (session runs f))).
Proof.
  revert f. induction runs as [| [now args] runs IH]; intros f Hinv.
  - assumption.
  - rewrite session_cons. apply IH. now apply invoke_maintains.
Qed.

(** A store under the maintained invariant in which no amount is a NaN
    satisfies the invariant of the specification. *)
Lemma maintained_without_nan (expenses : list Expense) :
  maintained_invariant expenses ->
  (forall e, In e expenses -> amount e <> PyFloat.nan) ->
  store_invariant expenses.
Proof.
  intros [Hnd Hall] Hnan. split; [assumption |].
  rewrite Forall_forall in *. intros e He.
  destruct (Hall e He) as [Hle Hcat]. split; [| assumption].
  destruct (not_leb_zero _ Hle) as [H | H]; [assumption |].
  exfalso. apply (Hnan e He H).
Qed.

(** ** The dates the program writes *)

Section WrittenDates.

Lemma mod10_cases (n : Z) :
  In (n mod 10) [0; 1; 2; 3; 4; 5; 6; 7; 8; 9].
Proof.
  pose proof (Z.mod_pos_bound n 10 ltac:(lia)) as Hb. simpl.
  assert (H : n mod 10 = 0 \/ n mod 10 = 1 \/ n mod 10 = 2 \/ n mod 10 = 3 \/
              n mod 10 = 4 \/ n mod 10 = 5 \/ n mod 10 = 6 \/ n mod 10 = 7 \/
              n mod 10 = 8 \/ n mod 10 = 9) by lia.
  intuition auto.
Qed.

Lemma of_digit_is_digit (n : Z) : Char.is_digit (Char.of_digit n) = true.
Proof.
  unfold Char.of_digit.
  pose proof (mod10_cases n) as H. simpl in H.
  repeat (destruct H as [<- | H]; [reflexivity |]). contradiction.
Qed.

Lemma of_digit_value (n : Z) : Char.digit_value (Char.of_digit n) = n mod 10.
Proof.
  unfold Char.of_digit.
  pose proof (mod10_cases n) as H. simpl in H.
  repeat (destruct H as [<- | H]; [reflexivity |]). contradiction.
Qed.

Lemma In_upto (n : nat) (k : Z) : 1 <= k <= Z.of_nat n -> In k (upto n).
Proof.
  intros Hk. unfold upto. apply in_map_iff. exists (Z.to_nat k). split.
  - lia.
  - apply in_seq. lia.
Qed.

(** Checked by computation on the 12 * 31 pairs. *)
Lemma month_day_reads_back (m d : Z) :
  1 <= m <= 12 -> 1 <= d <= 31 ->
  exists rest, Datetime.month_day (month_day_text m d) = (m, d, []) :: rest.
Proof.
  intros Hm Hd.
  assert (Hall : forallb (fun m => forallb (reads_back m) (upto 31)) (upto 12) = true)
    by (vm_compute; reflexivity).
  rewrite forallb_forall in Hall.
  specialize (Hall m (In_upto 12 m Hm)).
  rewrite forallb_forall in Hall.
  specialize (Hall d (In_upto 31 d Hd)).
  unfold reads_back in Hall.
  destruct (Datetime.month_day (month_day_text m d)) as [| [[m' d'] r] rest];
    [discriminate |].
  destruct r; [| discriminate].
  apply andb_true_iff in Hall. destruct Hall as [H1 H2].
  apply Z.eqb_eq in H1, H2. subst. eauto.
Qed.

Lemma days_in_month_le (y m : Z) : Datetime.days_in_month y m <= 31.
Proof.
  unfold Datetime.days_in_month.
  destruct (m =? 2); [destruct (Datetime.is_leap y); lia |].
  destruct ((m =? 4) || (m =? 6) || (m =? 9) || (m =? 11)); lia.
Qed.

(** [strptime] reads back what [strftime] wrote. *)
Lemma strptime_strftime (now : Datetime.datetime) :
  running_clock now ->
  Datetime.strptime (Datetime.strftime now) = Some now.
Proof.
  intros [Hvalid Hyear]. destruct now as [y m d].
  pose proof Hvalid as Hv. unfold Datetime.valid in Hv. cbn [Datetime.year Datetime.month Datetime.day] in *.
  repeat (apply andb_true_iff in Hv; destruct Hv as [Hv ?]).
  repeat match goal with H : (_ <=? _) = true |- _ => apply Z.leb_le in H end.
  pose proof (days_in_month_le y m).
  destruct (month_day_reads_back m d ltac:(lia) ltac:(lia)) as [rest Hmd].
  unfold Datetime.strptime, Datetime.strftime, Datetime.matches.
  cbn [Datetime.year Datetime.month Datetime.day].
  change (list_ascii_of_string
            (Datetime.two_digits (y / 100) ++ Datetime.two_digits y ++ "-"
             ++ Datetime.two_digits m ++ "-" ++ Datetime.two_digits d)%string)
    with (Char.of_digit (y / 100 / 10) :: Char.of_digit (y / 100)
          :: Char.of_digit (y / 10) :: Char.of_digit y :: month_day_text m d).
  cbn [Datetime.year_group]. rewrite !of_digit_is_digit, !of_digit_value.
  cbn [andb flat_map]. rewrite Hmd. cbn [map app].
  replace (1000 * ((y / 100 / 10) mod 10) + 100 * ((y / 100) mod 10)
           + 10 * ((y / 10) mod 10) + y mod 10) with y
    by (Z.div_mod_to_equations; lia).
  rewrite Hvalid. reflexivity.
Qed.

End WrittenDates.

Section DatesParse.

Variable now : Datetime.datetime.
Variable f : data_file.
Hypothesis Hclock : running_clock now.
Hypothesis Hdates : dates_parse (records f).

Lemma add_keeps_dates (d s t : string) :
  dates_parse (records (fst (run (add_expense d s t) now f))).
Proof.
  rewrite add_expense_run.
  destruct (validate_amount s) as [a |]; [| exact Hdates].
  destruct (validate_category t) as [c |]; [| exact Hdates].
  cbn [fst records]. intros e He. apply in_app_iff in He.
  destruct He as [He | [<- | []]].
  - now apply Hdates.
  - cbn [new_record date]. rewrite (strptime_strftime now Hclock). discriminate.
Qed.

Lemma update_keeps_dates (i : Z) (d a c : option string) :
  dates_parse (records (fst (run (update_expense i d a c) now f))).
Proof.
  rewrite update_expense_run.
  destruct (find_first i (records f)) as [[[before x] after] |] eqn:Hf;
    [| exact Hdates].
  destruct (update_fields x d a c) as [x' |] eqn:Hx'; [| exact Hdates].
  destruct (find_first_Some _ _ _ _ _ Hf) as [Hsplit _].
  destruct (update_fields_Ok _ _ _ _ _ Hx') as [_ [Hdate _]].
  cbn [fst records]. intros e He.
  unfold dates_parse in Hdates. rewrite Hsplit in Hdates.
  apply in_app_iff in He. destruct He as [He | [<- | He]].
  - apply Hdates. apply in_app_iff. auto.
  - rewrite Hdate. apply Hdates. apply in_app_iff. simpl. auto.
  - apply Hdates. apply in_app_iff. simpl. auto.
Qed.

Lemma delete_keeps_dates (i : Z) :
  dates_parse (records (fst (run (delete_expense i) now f))).
Proof.
  rewrite delete_expense_run. cbv zeta.
  destruct (Nat.eqb _ _); [exact Hdates |].
  cbn [fst records]. intros e He. apply filter_In in He. apply Hdates, He.
Qed.

Lemma invoke_keeps_dates (args : command) :
  dates_parse (records (fst (invoke now args f))).
Proof.
  unfold invoke. destruct args as [d a c | i d a c | c | i | m c |]; cbn [main].
  - apply add_keeps_dates.
  - destruct (is_None d && is_None a && is_None c).
    + exact Hdates.
    + apply update_keeps_dates.
  - rewrite list_expenses_run. exact Hdates.
  - apply delete_keeps_dates.
  - rewrite get_summary_run. exact Hdates.
  - exact Hdates.
Qed.

End DatesParse.

(** Along a session run under clocks of the calendar, every date of the
    store stays readable by [strptime]: in particular in every store the
    program has built from a missing file. *)
Lemma session_keeps_dates (runs : list (Datetime.datetime * command))
    (f : data_file) :
  Forall (fun r => running_clock (fst r)) runs ->
  dates_parse (records f) ->
  dates_parse (records (fst (session runs f))).
Proof.
  revert f. induction runs as [| [now args] runs IH]; intros f Hclocks Hdates.
  - assumption.
  - inversion Hclocks as [| r rs Hnow Hrest]; subst.
    rewrite session_cons. apply IH; [assumption |].
    now apply invoke_keeps_dates.
Qed.

Lemma no_file_dates_parse : dates_parse (records NoFile).
Proof. intros e []. Qed.

(** * Further properties of the commands *)

(** ** Deleting *)

Lemma filter_keeps_all {A} (p : A -> bool) (l : list A) :
  (forall x, In x l -> p x = true) -> filter p l = l.
Proof.
  induction l as [| x l IH]; intros H; simpl.
  - reflexivity.
  - rewrite (H x) by (simpl; auto). f_equal. apply IH.
    intros y Hy. apply H. simpl. auto.
Qed.

Lemma filter_drops_one {A} (p : A -> bool) (l : list A) (x : A) :
  In x l -> p x = false -> Nat.eqb (List.length (filter p l)) (List.length l) = false.
Proof.
  intros Hin Hp. apply Nat.eqb_neq. intros Hlen.
  apply filter_length_forallb in Hlen.
  rewrite forallb_forall in Hlen. rewrite (Hlen x Hin) in Hp. discriminate.
Qed.

Lemma other_id_true (i : Z) (e : Expense) : other_id i e = true <-> id e <> i.
Proof.
  unfold other_id. rewrite negb_true_iff. apply Z.eqb_neq.
Qed.

(** The two ways [delete_expense] ends. *)
Lemma delete_expense_cases (now : Datetime.datetime) (f : data_file) (i : Z) :
  ((forall e, In e (records f) -> id e <> i) /\
   run (delete_expense i) now f = (f, [NotFoundLine i]))
  \/
  ((exists e, In e (records f) /\ id e = i) /\
   run (delete_expense i) now f = (Json (filter (other_id i) (records f)), [DeletedLine])).
Proof.
  rewrite delete_expense_run. cbv zeta. fold (other_id i).
  destruct (find_first i (records f)) as [[[before x] after] |] eqn:Hf.
  - right. destruct (find_first_Some _ _ _ _ _ Hf) as [Hsplit [Hx _]].
    assert (Hin : In x (records f))
      by (rewrite Hsplit; apply in_app_iff; simpl; auto).
    split; [eauto |].
    rewrite (filter_drops_one (other_id i) (records f) x Hin); [reflexivity |].
    unfold other_id. rewrite negb_false_iff. now apply Z.eqb_eq.
  - left. pose proof (proj1 (find_first_None i (records f)) Hf) as Hnone.
    split; [assumption |].
    rewrite filter_keeps_all by (intros y Hy; apply other_id_true; auto).
    rewrite Nat.eqb_refl. reflexivity.
Qed.

(** X1. When some record has the id, [delete_expense] reports success
    and writes back the records of the other ids, in their order: every
    record with that id is gone (all of them, when several share it),
    and every other record is kept. *)
Theorem delete_removes_every_record_of_id (now : Datetime.datetime)
    (f : data_file) (i : Z) :
  (exists e, In e (records f) /\ id e = i) ->
  run (delete_expense i) now f
  = (Json (filter (other_id i) (records f)), [DeletedLine])
  /\ forall e, In e (records (fst (run (delete_expense i) now f))) <->
               In e (records f) /\ id e <> i.
Proof.
  intros [x [Hin Hx]].
  destruct (delete_expense_cases now f i) as [[Hnone _] | [_ Hrun]].
  - exfalso. apply (Hnone x Hin Hx).
  - split; [assumption |]. rewrite Hrun. cbn [fst records].
    intros e. rewrite filter_In, other_id_true. reflexivity.
Qed.

Lemma delete_removes_every_record_of_id_witness :
  run (delete_expense 1) Examples.jan5
    (Json [Examples.coffee; Examples.bus; set_description Examples.coffee "Tea"])
  = (Json [Examples.bus], [DeletedLine]).
Proof.
  refine (proj1 (delete_removes_every_record_of_id Examples.jan5
                   (Json [Examples.coffee; Examples.bus;
                          set_description Examples.coffee "Tea"]) 1 _)).
  exists Examples.coffee. split; [simpl; auto | reflexivity].
Defined.

(** X2. [delete_expense] reports "No expense found" exactly when no
    record has the id, and then it does not write the file: a missing
    file stays missing and a malformed one stays as it is. *)
Theorem delete_not_found_iff_absent (now : Datetime.datetime) (f : data_file)
    (i : Z) :
  (snd (run (delete_expense i) now f) = [NotFoundLine i] <->
   forall e, In e (records f) -> id e <> i)
  /\ (snd (run (delete_expense i) now f) = [NotFoundLine i] ->
      fst (run (delete_expense i) now f) = f).
Proof.
  destruct (delete_expense_cases now f i) as [[Hnone Hrun] | [[x [Hin Hx]] Hrun]];
    rewrite Hrun; cbn [fst snd].
  - split; [split; auto | reflexivity].
  - split; [split |]; try discriminate.
    intros H. exfalso. apply (H x Hin Hx).
Qed.

Lemma delete_not_found_iff_absent_witness :
  fst (run (delete_expense 7) Examples.jan5 Malformed) = Malformed.
Proof.
  apply (proj2 (delete_not_found_iff_absent Examples.jan5 Malformed 7)).
  reflexivity.
Defined.

(** X3. Deleting the same id a second time always reports "No expense
    found" and leaves the file as the first deletion left it, whatever
    the first deletion did. *)
Theorem delete_twice_not_found (now1 now2 : Datetime.datetime) (f : data_file)
    (i : Z) :
  run (delete_expense i) now2 (fst (run (delete_expense i) now1 f))
  = (fst (run (delete_expense i) now1 f), [NotFoundLine i]).
Proof.
  destruct (delete_expense_cases now1 f i) as [[Hnone Hrun] | [_ Hrun]];
    rewrite Hrun; cbn [fst].
  - destruct (delete_expense_cases now2 f i) as [[_ H2] | [[x [Hin Hx]] _]].
    + exact H2.
    + exfalso. apply (Hnone x Hin Hx).
  - destruct (delete_expense_cases now2 (Json (filter (other_id i) (records f))) i)
      as [[_ H2] | [[x [Hin Hx]] _]].
    + exact H2.
    + exfalso. cbn [records] in Hin. apply filter_In in Hin.
      destruct Hin as [_ Hin]. apply other_id_true in Hin. contradiction.
Qed.

(** ** Adding, then deleting, listing or adding again *)

(** A successful [add_expense]: what it validated and what it wrote. *)
Lemma add_expense_success (now : Datetime.datetime) (f : data_file)
    (d s t : string) (n : Z) :
  snd (run (add_expense d s t) now f) = [AddedLine n] ->
  exists a c,
    validate_amount s = Ok a /\ validate_category t = Ok c /\
    n = get_next_id (records f) /\
    fst (run (add_expense d s t) now f)
    = Json (records f ++ [new_record now f d a c]).
Proof.
  rewrite add_expense_run.
  destruct (validate_amount s) as [a |]; [| discriminate].
  destruct (validate_category t) as [c |]; [| discriminate].
  intros H. inversion H. exists a, c. auto.
Qed.

Lemma filter_other_id_snoc (expenses : list Expense) (x : Expense) :
  (forall e, In e expenses -> id e < id x) ->
  filter (other_id (id x)) (expenses ++ [x]) = expenses.
Proof.
  intros Hlt. rewrite filter_app. cbn [filter]. unfold other_id at 2.
  rewrite Z.eqb_refl. cbn [negb]. rewrite app_nil_r.
  apply filter_keeps_all. intros e He. apply other_id_true.
  specialize (Hlt e He). lia.
Qed.

(** X4. Deleting the id that a successful [add_expense] has just
    reported undoes the add: the file holds the records it held before
    the add, in the same order (as a list, also when the file was
    missing or malformed before). *)
Theorem add_then_delete_restores (now1 now2 : Datetime.datetime)
    (f : data_file) (d s t : string) (n : Z) :
  snd (run (add_expense d s t) now1 f) = [AddedLine n] ->
  run (delete_expense n) now2 (fst (run (add_expense d s t) now1 f))
  = (Json (records f), [DeletedLine]).
Proof.
  intros Hadd.
  destruct (add_expense_success now1 f d s t n Hadd) as [a [c [_ [_ [Hn Hfile]]]]].
  rewrite Hfile.
  pose (x := new_record now1 f d a c).
  assert (Hx : id x = n) by (subst n; reflexivity).
  assert (Hlt : forall e, In e (records f) -> id e < id x)
    by (intros e He; rewrite Hx, Hn; now apply get_next_id_above).
  destruct (delete_expense_cases now2 (Json (records f ++ [x])) n)
    as [[Hnone _] | [_ Hrun]].
  - exfalso. apply (Hnone x); [| exact Hx].
    cbn [records]. apply in_app_iff. simpl. auto.
  - fold x. rewrite Hrun. cbn [records]. rewrite <- Hx.
    rewrite (filter_other_id_snoc (records f) x Hlt). reflexivity.
Qed.

Lemma add_then_delete_restores_witness :
  run (delete_expense 2) Examples.jan5
    (fst (run (add_expense "Bus" "2.75" "Transportation") Examples.jan5
            (Json [Examples.coffee])))
  = (Json (records (Json [Examples.coffee])), [DeletedLine]).
Proof.
  apply (add_then_delete_restores Examples.jan5 Examples.jan5
           (Json [Examples.coffee]) "Bus" "2.75" "Transportation" 2).
  reflexivity.
Defined.

(** X5. After a valid [add_expense], the table [list_expenses] builds
    without a category has the rows it would have had before, in their
    order, followed by one row made of the new record: the id reported,
    the date of the add, the category and the description strings as
    they were given, and the validated amount.  That row is none of the
    earlier rows, so the new record makes exactly one row.  (A row is
    what the function hands to the table printer, with the amount kept
    as the number that the source formats to two decimals; how the
    printer lays the cells out is not part of the statement.) *)
Theorem add_then_list_shows_new_row (now1 now2 : Datetime.datetime)
    (f : data_file) (d s t : string) (a : PyFloat.float) :
  validate_amount s = Ok a ->
  In t CATEGORIES ->
  let f1 := fst (run (add_expense d s t) now1 f) in
  let new_row := (get_next_id (records f), Datetime.strftime now1, t, d, a) in
  snd (run (add_expense d s t) now1 f) = [AddedLine (get_next_id (records f))]
  /\ run (list_expenses None) now2 f1
     = (f1, [TableLine (map table_row (records f) ++ [new_row])])
  /\ ~ In new_row (map table_row (records f)).
Proof.
  intros Ha Ht f1 new_row.
  assert (Hc : validate_category t = Ok t) by (apply validate_category_Ok; auto).
  assert (Hrun : run (add_expense d s t) now1 f
                 = (Json (records f ++ [new_record now1 f d a t]),
                    [AddedLine (get_next_id (records f))]))
    by (rewrite add_expense_run, Ha, Hc; reflexivity).
  split; [rewrite Hrun; reflexivity |]. split.
  - unfold f1. rewrite Hrun. cbn [fst].
    rewrite list_expenses_run. cbn [records truthy_str].
    destruct (records f ++ [new_record now1 f d a t]) as [| e rest] eqn:He.
    + destruct (records f); discriminate He.
    + rewrite <- He, map_app. reflexivity.
  - intros Hin. apply in_map_iff in Hin. destruct Hin as [e [Hrow He]].
    unfold table_row, new_row in Hrow. inversion Hrow as [[Hid Hdate Hcat Hdesc Hamount]].
    pose proof (get_next_id_above _ _ He). lia.
Qed.

Lemma add_then_list_shows_new_row_witness :
  run (list_expenses None) Examples.jan5
    (fst (run (add_expense "Bus" "2.75" "Transportation") Examples.jan5
            (Json [Examples.coffee])))
  = (Json [Examples.coffee; Examples.bus],
     [TableLine [(1, "2024-01-05", "Food", "Coffee", Examples.f4_5);
                 (2, "2024-01-05", "Transportation", "Bus", Examples.f2_75)]]).
Proof.
  refine (proj1 (proj2 (add_then_list_shows_new_row Examples.jan5 Examples.jan5
                          (Json [Examples.coffee]) "Bus" "2.75" "Transportation"
                          Examples.f2_75 _ _))).
  - reflexivity.
  - simpl. auto.
Defined.

Lemma get_next_id_snoc (expenses : list Expense) (x : Expense) :
  (forall e, In e expenses -> id e < id x) ->
  get_next_id (expenses ++ [x]) = id x + 1.
Proof.
  intros Hlt.
  assert (Hne : expenses ++ [x] <> []) by (destruct expenses; discriminate).
  destruct (get_next_id_attained _ Hne) as [e [He Hnext]].
  assert (Hx : In x (expenses ++ [x])) by (apply in_app_iff; simpl; auto).
  pose proof (get_next_id_above _ _ Hx) as Habove.
  apply in_app_iff in He. destruct He as [He | [<- | []]].
  - specialize (Hlt e He). lia.
  - assumption.
Qed.

(** X6. Two successful adds in a row are given consecutive ids: the
    second id is the first plus one. *)
Theorem successive_adds_consecutive_ids (now1 now2 : Datetime.datetime)
    (f : data_file) (d1 s1 t1 d2 s2 t2 : string) (n m : Z) :
  snd (run (add_expense d1 s1 t1) now1 f) = [AddedLine n] ->
  snd (run (add_expense d2 s2 t2) now2 (fst (run (add_expense d1 s1 t1) now1 f)))
  = [AddedLine m] ->
  m = n + 1.
Proof.
  intros H1 H2.
  destruct (add_expense_success now1 f d1 s1 t1 n H1) as [a [c [_ [_ [Hn Hfile]]]]].
  rewrite Hfile in H2. apply add_expense_output in H2. cbn [records] in H2.
  rewrite get_next_id_snoc in H2.
  - rewrite H2, Hn. reflexivity.
  - intros e He. cbn [new_record id]. now apply get_next_id_above.
Qed.

Lemma successive_adds_consecutive_ids_witness : 3 = 2 + 1.
Proof.
  apply (successive_adds_consecutive_ids Examples.jan5 Examples.jan5
           (Json [Examples.coffee]) "Bus" "2.75" "Transportation"
           "Tea" "3" "Food" 2 3); reflexivity.
Defined.

(** ** Updating *)

(** X7. [update_expense] reports "No expense found" exactly when no
    record has the id; the fields are then not even validated, so an
    invalid amount or category given with an unknown id is reported as
    an unknown id. *)
Theorem update_not_found_iff_absent (now : Datetime.datetime) (f : data_file)
    (i : Z) (d a c : option string) :
  snd (run (update_expense i d a c) now f) = [NotFoundLine i] <->
  forall e, In e (records f) -> id e <> i.
Proof.
  rewrite update_expense_run.
  destruct (find_first i (records f)) as [[[before x] after] |] eqn:Hf.
  - destruct (find_first_Some _ _ _ _ _ Hf) as [Hsplit [Hx _]].
    assert (Hin : In x (records f))
      by (rewrite Hsplit; apply in_app_iff; simpl; auto).
    split.
    + destruct (update_fields x d a c); discriminate.
    + intros H. exfalso. apply (H x Hin Hx).
  - split; [| reflexivity]. intros _. now apply find_first_None.
Qed.

Lemma update_not_found_iff_absent_witness :
  snd (run (update_expense 9 None (Some "nothing") (Some "Bogus")) Examples.jan5
         (Json [Examples.coffee]))
  = [NotFoundLine 9].
Proof.
  apply (proj2 (update_not_found_iff_absent Examples.jan5 (Json [Examples.coffee])
                  9 None (Some "nothing") (Some "Bogus"))).
  intros e [<- | []]. discriminate.
Defined.

(** X8. The amount is validated before the category: when the amount is
    rejected, [add_expense], and [update_expense] on an id of the store,
    report "Invalid amount" whatever the category is, valid or not, and
    leave the file as it was. *)
Theorem amount_error_comes_first (now : Datetime.datetime) (f : data_file)
    (i : Z) (description amount category : string) (d c : option string)
    (e : exn) :
  validate_amount amount = Raise e ->
  run (add_expense description amount category) now f
  = (f, [ErrorLine "Invalid amount"])
  /\ ((exists y, In y (records f) /\ id y = i) ->
      run (update_expense i d (Some amount) c) now f
      = (f, [ErrorLine "Invalid amount"])).
Proof.
  intros Hamount. pose proof (validate_amount_Raise _ _ Hamount) as He. split.
  - rewrite add_expense_run, Hamount, He. reflexivity.
  - intros [y [Hin Hy]].
    destruct (find_first_In i (records f) y Hin Hy) as [before [x [after Hf]]].
    rewrite update_expense_run, Hf. unfold update_fields, rbind.
    rewrite Hamount, He. reflexivity.
Qed.

Lemma amount_error_comes_first_witness :
  run (add_expense "Tea" "free" "Bogus") Examples.jan5 (Json [Examples.coffee])
  = (Json [Examples.coffee], [ErrorLine "Invalid amount"])
  /\ run (update_expense 1 (Some "Tea") (Some "free") (Some "Bogus")) Examples.jan5
       (Json [Examples.coffee])
     = (Json [Examples.coffee], [ErrorLine "Invalid amount"]).
Proof.
  destruct (amount_error_comes_first Examples.jan5 (Json [Examples.coffee]) 1
              "Tea" "free" "Bogus" (Some "Tea") (Some "Bogus")
              (ValueError "Invalid amount") eq_refl) as [Hadd Hupdate].
  split; [exact Hadd |].
  apply Hupdate. exists Examples.coffee. split; [simpl; auto | reflexivity].
Defined.

(** X9. Whatever it is given and however it ends, [update_expense]
    leaves the ids and the dates of the store as they were, record by
    record: it adds no record, removes none and reorders none. *)
Theorem update_keeps_ids_and_dates (now : Datetime.datetime) (f : data_file)
    (i : Z) (d a c : option string) :
  map id (records (fst (run (update_expense i d a c) now f))) = map id (records f)
  /\ map date (records (fst (run (update_expense i d a c) now f)))
     = map date (records f).
Proof.
  rewrite update_expense_run.
  destruct (find_first i (records f)) as [[[before x] after] |] eqn:Hf;
    [| split; reflexivity].
  destruct (update_fields x d a c) as [x' |] eqn:Hx'; [| split; reflexivity].
  destruct (find_first_Some _ _ _ _ _ Hf) as [Hsplit _].
  destruct (update_fields_Ok _ _ _ _ _ Hx') as [Hid [Hdate _]].
  cbn [fst records]. rewrite Hsplit, !map_app. cbn [map].
  rewrite Hid, Hdate. split; reflexivity.
Qed.

Lemma find_first_split (i : Z) (before after : list Expense) (x : Expense) :
  (forall y, In y before -> id y <> i) -> id x = i ->
  find_first i (before ++ x :: after) = Some (before, x, after).
Proof.
  intros Hbefore Hx. induction before as [| y before IH]; simpl.
  - rewrite (proj2 (Z.eqb_eq _ _) Hx). reflexivity.
  - rewrite (proj2 (Z.eqb_neq _ _) (Hbefore y (or_introl eq_refl))).
    rewrite IH by (intros z Hz; apply Hbefore; simpl; auto). reflexivity.
Qed.

Lemma update_fields_again (x x' : Expense) (d a c : option string) :
  update_fields x d a c = Ok x' -> update_fields x' d a c = Ok x'.
Proof.
  unfold update_fields, rbind.
  destruct a as [s |]; [destruct (validate_amount s) as [v |] eqn:Hv;
                        [| discriminate] |];
    (destruct c as [t |];
     [destruct (validate_category t) as [u |] eqn:Hu; [| discriminate] |]);
    intros H; inversion H; subst; clear H;
    destruct d; destruct x; reflexivity.
Qed.

(** X10. Running the same [update_expense] a second time changes
    nothing more: it prints what the first run printed and leaves the
    file as the first run left it. *)
Theorem update_twice_same (now1 now2 : Datetime.datetime) (f : data_file)
    (i : Z) (d a c : option string) :
  run (update_expense i d a c) now2 (fst (run (update_expense i d a c) now1 f))
  = run (update_expense i d a c) now1 f.
Proof.
  rewrite (update_expense_run now1).
  destruct (find_first i (records f)) as [[[before x] after] |] eqn:Hf.
  - destruct (update_fields x d a c) as [x' |] eqn:Hx'; cbn [fst].
    + destruct (find_first_Some _ _ _ _ _ Hf) as [_ [Hx Hbefore]].
      destruct (update_fields_Ok _ _ _ _ _ Hx') as [Hid _].
      rewrite update_expense_run. cbn [records].
      rewrite (find_first_split i before after x' Hbefore) by congruence.
      rewrite (update_fields_again _ _ _ _ _ Hx'). reflexivity.
    + rewrite update_expense_run, Hf, Hx'. reflexivity.
  - cbn [fst]. rewrite update_expense_run, Hf. reflexivity.
Qed.

(** ** Listing and summing up *)

(** X11. On an empty store (a missing file, a malformed file, or a file
    holding the empty list) [list_expenses] and [get_summary] print "No
    expenses found" and nothing else, whatever their arguments are:
    neither the category nor the month is looked at. *)
Theorem empty_store_no_expenses (now : Datetime.datetime) (f : data_file)
    (month : option Z) (category : option string) :
  records f = [] ->
  run (list_expenses category) now f = (f, [NoExpensesLine])
  /\ run (get_summary month category) now f = (f, [NoExpensesLine]).
Proof.
  intros Hempty. rewrite list_expenses_run, get_summary_run, Hempty.
  split; reflexivity.
Qed.

Lemma empty_store_no_expenses_witness :
  run (list_expenses (Some "Bogus")) Examples.jan5 Malformed
  = (Malformed, [NoExpensesLine])
  /\ run (get_summary (Some 13) (Some "Bogus")) Examples.jan5 Malformed
     = (Malformed, [NoExpensesLine]).
Proof.
  apply (empty_store_no_expenses Examples.jan5 Malformed (Some 13) (Some "Bogus")).
  reflexivity.
Defined.

(** X12. Given a category of the fixed set that at least one record
    has, [list_expenses] prints one table whose rows are the records of
    that category, all of them and no other, in the order of the file. *)
Theorem list_category_rows (now : Datetime.datetime) (f : data_file)
    (c : string) :
  In c CATEGORIES ->
  (exists e, In e (records f) /\ category e = c) ->
  run (list_expenses (Some c)) now f
  = (f, [TableLine (map table_row (filter (in_category c) (records f)))])
  /\ forall e, In e (filter (in_category c) (records f)) <->
               In e (records f) /\ category e = c.
Proof.
  intros Hc [e [Hin He]]. split.
  - rewrite list_expenses_run. f_equal.
    pose proof (filter_in_category_nonempty c (records f) e Hin He) as Hkept.
    destruct (records f) as [| e0 rest]; [contradiction |].
    rewrite (category_truthy c Hc), (proj2 (mem_In c CATEGORIES) Hc). cbv zeta.
    destruct (filter (in_category c) (e0 :: rest)); [congruence | reflexivity].
  - intros x. rewrite filter_In. unfold in_category.
    rewrite String.eqb_eq. reflexivity.
Qed.

Lemma list_category_rows_witness :
  run (list_expenses (Some "Food")) Examples.jan5
    (Json [Examples.coffee; Examples.bus])
  = (Json [Examples.coffee; Examples.bus],
     [TableLine [(1, "2024-01-05", "Food", "Coffee", Examples.f4_5)]]).
Proof.
  refine (proj1 (list_category_rows Examples.jan5
                   (Json [Examples.coffee; Examples.bus]) "Food" _ _)).
  - simpl. auto.
  - exists Examples.coffee. split; [simpl; auto | reflexivity].
Defined.

(** X13. Listing, the summary, a command line without a command and an
    update without any field to change never write the file: it is
    afterwards what it was, and a missing file is not created. *)
Theorem reading_commands_keep_file (now : Datetime.datetime) (f : data_file)
    (args : command) :
  reads_only args -> fst (invoke now args f) = f.
Proof.
  unfold invoke.
  destruct args as [d a c | i [d |] [a |] [c |] | c | i | m c |];
    cbn [reads_only main is_None andb]; intros H; try contradiction.
  - reflexivity.
  - rewrite list_expenses_run. reflexivity.
  - rewrite get_summary_run. reflexivity.
  - reflexivity.
Qed.

Lemma reading_commands_keep_file_witness :
  fst (invoke Examples.jan5 (Summary (Some 1) (Some "Food")) NoFile) = NoFile.
Proof.
  apply (reading_commands_keep_file Examples.jan5 NoFile (Summary (Some 1) (Some "Food"))).
  exact I.
Defined.

Lemma dates_parse_filter (p : Expense -> bool) (expenses : list Expense) :
  dates_parse expenses -> dates_parse (filter p expenses).
Proof.
  intros H e He. apply filter_In in He. apply H, He.
Qed.

(** X14. With a month of 1..12 and a category of the fixed set that at
    least one record has, on a store whose dates are well formed,
    [get_summary] prints one line with the total of the amounts of the
    records of that category whose date is in that month of the year of
    the clock.  The category is filtered first; when no record of the
    category is in the month the total of no amount, zero, is printed. *)
Theorem summary_month_and_category (now : Datetime.datetime) (f : data_file)
    (m : Z) (c : string) :
  dates_parse (records f) ->
  1 <= m <= 12 ->
  In c CATEGORIES ->
  (exists e, In e (records f) /\ category e = c) ->
  run (get_summary (Some m) (Some c)) now f
  = (f, [TotalMonthCategoryLine (Datetime.month_name m) c
           (sum_amounts
              (filter (in_month m (Datetime.year now))
                 (filter (in_category c) (records f))))]).
Proof.
  intros Hdates Hm Hc [e [Hin He]]. rewrite get_summary_run. f_equal.
  pose proof (filter_in_category_nonempty c (records f) e Hin He) as Hkept.
  pose proof (dates_parse_filter (in_category c) _ Hdates) as Hkd.
  destruct (records f) as [| e0 rest]; [contradiction |].
  rewrite (category_truthy c Hc), (proj2 (mem_In c CATEGORIES) Hc). cbv zeta.
  destruct (filter (in_category c) (e0 :: rest)) as [| k kept]; [congruence |].
  unfold month_lines, total_lines.
  destruct (valid_month_truthy m Hm) as [-> ->].
  rewrite (category_truthy c Hc).
  rewrite filter_month_parse by assumption. reflexivity.
Qed.

Lemma summary_month_and_category_witness :
  run (get_summary (Some 2) (Some "Food")) Examples.jan5
    (Json [Examples.coffee; Examples.bus])
  = (Json [Examples.coffee; Examples.bus],
     [TotalMonthCategoryLine "February" "Food" PyFloat.zero]).
Proof.
  apply (summary_month_and_category Examples.jan5
           (Json [Examples.coffee; Examples.bus]) 2 "Food").
  - intros e [<- | [<- | []]]; discriminate.
  - lia.
  - simpl. auto.
  - exists Examples.coffee. split; [simpl; auto | reflexivity].
Defined.

(** X15. On a store holding a date that [strptime] cannot read, asking
    for the summary of a month of 1..12 (without a category) prints
    "Error: Invalid month", although the month is valid: the error of
    the date is caught by the handler of the month. *)
Theorem summary_unreadable_date_invalid_month (now : Datetime.datetime)
    (f : data_file) (m : Z) :
  1 <= m <= 12 ->
  ~ dates_parse (records f) ->
  run (get_summary (Some m) None) now f = (f, [InvalidMonthLine]).
Proof.
  intros Hm Hdates. rewrite get_summary_run. f_equal.
  destruct (records f) as [| e rest] eqn:Hrec.
  - exfalso. apply Hdates. intros e [].
  - cbn [truthy_str]. unfold month_lines.
    destruct (valid_month_truthy m Hm) as [-> ->].
    destruct (filter_month_raise m (Datetime.year now) (e :: rest) Hdates)
      as [err ->].
    reflexivity.
Qed.

Lemma summary_unreadable_date_invalid_month_witness :
  run (get_summary (Some 1) None) Examples.jan5
    (Json [Examples.coffee; SummaryExample.jan2023;
           {| id := 4; date := "05/01/2024"; description := "Bus";
              amount := Examples.f2_75; category := "Transportation" |}])
  = (Json [Examples.coffee; SummaryExample.jan2023;
           {| id := 4; date := "05/01/2024"; description := "Bus";
              amount := Examples.f2_75; category := "Transportation" |}],
     [InvalidMonthLine]).
Proof.
  apply summary_unreadable_date_invalid_month.
  - lia.
  - intros H.
    apply (H {| id := 4; date := "05/01/2024"; description := "Bus";
                amount := Examples.f2_75; category := "Transportation" |}).
    + simpl. auto.
    + reflexivity.
Defined.

(** X16. The month [0] and the empty category are taken for arguments
    that were not given: [get_summary] with month 0 does what it does
    without a month, and [get_summary] and [list_expenses] with the
    empty category do what they do without a category. *)
Theorem zero_month_and_empty_category_ignored (now : Datetime.datetime)
    (f : data_file) (month : option Z) (category : option string) :
  run (get_summary (Some 0) category) now f = run (get_summary None category) now f
  /\ run (get_summary month (Some "")) now f = run (get_summary month None) now f
  /\ run (list_expenses (Some "")) now f = run (list_expenses None) now f.
Proof.
  rewrite !get_summary_run, !list_expenses_run. repeat split; reflexivity.
Qed.

(** X17. With at least one record in the store, [get_summary] given a
    category that is a non-empty string outside the fixed set prints the
    error of the category whatever the month is, valid or not. *)
Theorem summary_unknown_category_first (now : Datetime.datetime)
    (f : data_file) (month : option Z) (c : string) :
  records f <> [] ->
  c <> "" ->
  ~ In c CATEGORIES ->
  run (get_summary month (Some c)) now f
  = (f, [ErrorLine invalid_category_message]).
Proof.
  intros Hne Hc Hn. rewrite get_summary_run. f_equal.
  destruct (records f) as [| e rest]; [congruence |].
  rewrite (nonempty_truthy c Hc), (not_In_mem c Hn). reflexivity.
Qed.

Lemma summary_unknown_category_first_witness :
  run (get_summary (Some 13) (Some "Bogus")) Examples.jan5 (Json [Examples.coffee])
  = (Json [Examples.coffee], [ErrorLine invalid_category_message]).
Proof.
  apply summary_unknown_category_first.
  - discriminate.
  - discriminate.
  - intros Hin. apply mem_In in Hin. discriminate Hin.
Defined.

(** X18. With at least one record in the store, and given a category of
    the fixed set that no record has, [list_expenses] and [get_summary]
    print "No expenses found in category" and nothing else; for
    [get_summary], whatever the month is, valid or not. *)
Theorem category_without_record (now : Datetime.datetime) (f : data_file)
    (month : option Z) (c : string) :
  records f <> [] ->
  In c CATEGORIES ->
  (forall e, In e (records f) -> category e <> c) ->
  run (list_expenses (Some c)) now f = (f, [NoExpensesInCategoryLine c])
  /\ run (get_summary month (Some c)) now f = (f, [NoExpensesInCategoryLine c]).
Proof.
  intros Hne Hc Hnone.
  assert (Hkept : filter (in_category c) (records f) = []).
  { destruct (filter (in_category c) (records f)) as [| e kept] eqn:Hf;
      [reflexivity |].
    assert (He : In e (filter (in_category c) (records f)))
      by (rewrite Hf; simpl; auto).
    apply filter_In in He. destruct He as [Hin He].
    unfold in_category in He. apply String.eqb_eq in He.
    exfalso. apply (Hnone e Hin He). }
  rewrite list_expenses_run, get_summary_run.
  destruct (records f) as [| e rest]; [congruence |].
  rewrite (category_truthy c Hc), (proj2 (mem_In c CATEGORIES) Hc). cbv zeta.
  rewrite Hkept. split; reflexivity.
Qed.

Lemma category_without_record_witness :
  run (list_expenses (Some "Housing")) Examples.jan5 (Json [Examples.coffee])
  = (Json [Examples.coffee], [NoExpensesInCategoryLine "Housing"])
  /\ run (get_summary (Some 13) (Some "Housing")) Examples.jan5
       (Json [Examples.coffee])
     = (Json [Examples.coffee], [NoExpensesInCategoryLine "Housing"]).
Proof.
  apply category_without_record.
  - discriminate.
  - simpl. auto.
  - intros e [<- | []]. discriminate.
Defined.

Lemma breakdown_lines_closed_form (cats : list string) (expenses : list Expense) :
  breakdown_lines cats expenses
  = map (fun cat => CategoryTotalLine cat (subtotal expenses cat))
      (filter (fun cat => PyFloat.ltb PyFloat.zero (subtotal expenses cat)) cats).
Proof.
  unfold breakdown_lines, subtotal.
  induction cats as [| cat cats IH]; simpl.
  - reflexivity.
  - rewrite IH.
    destruct (PyFloat.ltb PyFloat.zero
                (sum_amounts (filter (in_category cat) expenses))); reflexivity.
Qed.

(** X19. On a store holding at least one record, [get_summary] without
    a filter prints the total, the heading of the breakdown, and then
    one line for each category of the fixed set whose subtotal is above
    zero, in the order of the fixed set, with that subtotal.  A category
    whose subtotal is zero or a NaN gets no line, and the records whose
    category is none of the fixed set are in the total only. *)
Theorem summary_breakdown (now : Datetime.datetime) (f : data_file) :
  records f <> [] ->
  snd (run (get_summary None None) now f)
  = TotalLine (sum_amounts (records f)) :: BreakdownLine
    :: map (fun cat => CategoryTotalLine cat (subtotal (records f) cat))
         (filter (fun cat => PyFloat.ltb PyFloat.zero (subtotal (records f) cat))
            CATEGORIES).
Proof.
  intros Hne. rewrite get_summary_run. cbn [snd truthy_str].
  destruct (records f) as [| e rest]; [congruence |].
  unfold month_lines, total_lines. cbn [truthy_int truthy_str].
  rewrite breakdown_lines_closed_form. reflexivity.
Qed.

Lemma summary_breakdown_witness :
  snd (run (get_summary None None) Examples.jan5
         (Json [Examples.coffee; set_category Examples.bus "Taxi";
                set_amount Examples.coffee PyFloat.nan]))
  = [TotalLine PyFloat.nan; BreakdownLine].
Proof.
  apply (summary_breakdown Examples.jan5
           (Json [Examples.coffee; set_category Examples.bus "Taxi";
                  set_amount Examples.coffee PyFloat.nan])).
  discriminate.
Defined.

(** ** Validation of the amount, in full *)

(** X20. [validate_amount] returns a number exactly when [float] reads
    the string and the number is not below or equal to zero; what it
    returns is then above zero (an infinity included) or is a NaN.  In
    every other case, a string that is not a number as well as a number
    that is zero or negative, the error is "Invalid amount": the message
    "Amount must be positive" never leaves the function. *)
Theorem validate_amount_outcomes (s : string) :
  match validate_amount s with
  | Ok x =>
      PyFloat.of_string s = Some x /\
      (PyFloat.ltb PyFloat.zero x = true \/ x = PyFloat.nan)
  | Raise e =>
      e = ValueError "Invalid amount" /\
      (PyFloat.of_string s = None \/
       exists x, PyFloat.of_string s = Some x /\ PyFloat.leb x PyFloat.zero = true)
  end.
Proof.
  destruct (validate_amount s) as [x | e] eqn:Hv.
  - apply validate_amount_Ok in Hv. destruct Hv as [Hparse Hle].
    split; [assumption | now apply not_leb_zero].
  - split; [now apply (validate_amount_Raise s) |].
    unfold validate_amount, rcatch, rbind in Hv.
    destruct (PyFloat.of_string s) as [x |]; [| now left].
    right. exists x. split; [reflexivity |].
    destruct (PyFloat.leb x PyFloat.zero); [reflexivity | discriminate].
Qed.

(** ** What holds of every store the program has written *)

(** X21. Along every session started from a store whose ids are
    pairwise distinct, whose categories are of the fixed set and whose
    amounts are not below or equal to zero (a missing file, for one),
    the store keeps distinct ids, every category stays one of the fixed
    set, and every amount is above zero or is a NaN. *)
Theorem session_keeps_records_accepted
    (runs : list (Datetime.datetime * command)) (f : data_file) :
  maintained_invariant (records f) ->
  NoDup (map id (records (fst (session runs f))))
  /\ forall e, In e (records (fst (session runs f))) ->
       In (category e) CATEGORIES /\
       (PyFloat.ltb PyFloat.zero (amount e) = true \/ amount e = PyFloat.nan).
Proof.
  intros Hinv.
  destruct (session_maintains runs f Hinv) as [Hnd Hall]. split; [assumption |].
  rewrite Forall_forall in Hall. intros e He.
  destruct (Hall e He) as [Hle Hcat]. split; [assumption |].
  now apply not_leb_zero.
Qed.

Lemma session_keeps_records_accepted_witness :
  NoDup (map id (records (fst (session
           [(Examples.jan5, Add "Coffee" "4.5" "Food");
            (Examples.jan5, Add "Tea" "nan" "Food");
            (Examples.jan5, Update 1 None (Some "inf") (Some "Other"));
            (Examples.jan5, Delete 2)] NoFile)))).
Proof.
  refine (proj1 (session_keeps_records_accepted
                   [(Examples.jan5, Add "Coffee" "4.5" "Food");
                    (Examples.jan5, Add "Tea" "nan" "Food");
                    (Examples.jan5, Update 1 None (Some "inf") (Some "Other"));
                    (Examples.jan5, Delete 2)] NoFile _)).
  split; constructor.
Defined.

Section IdsInOrder.

Lemma increase_snoc (expenses : list Expense) (x : Expense) :
  ids_increase expenses ->
  (forall e, In e expenses -> id e < id x) ->
  ids_increase (expenses ++ [x]).
Proof.
  unfold ids_increase. induction expenses as [| e rest IH]; intros Hs Hlt; simpl.
  - constructor; constructor.
  - apply StronglySorted_inv in Hs. destruct Hs as [Hrest Hhead].
    constructor.
    + apply IH; [assumption |]. intros y Hy. apply Hlt. simpl. auto.
    + rewrite map_app. apply Forall_app. split; [assumption |].
      constructor; [| constructor]. apply Hlt. simpl. auto.
Qed.

Lemma increase_filter (p : Expense -> bool) (expenses : list Expense) :
  ids_increase expenses -> ids_increase (filter p expenses).
Proof.
  unfold ids_increase. induction expenses as [| e rest IH]; intros Hs; simpl.
  - constructor.
  - apply StronglySorted_inv in Hs. destruct Hs as [Hrest Hhead].
    destruct (p e); [| now apply IH].
    simpl. constructor; [now apply IH |].
    rewrite Forall_forall in *. intros n Hn. apply Hhead.
    apply in_map_iff in Hn. destruct Hn as [y [<- Hy]].
    apply in_map. apply filter_In in Hy. tauto.
Qed.

Variable now : Datetime.datetime.
Variable f : data_file.
Hypothesis Hordered : ids_in_order (records f).

Lemma get_next_id_positive : 1 <= get_next_id (records f).
Proof.
  destruct Hordered as [_ Hpos].
  destruct (records f) as [| e rest]; [simpl; lia |].
  pose proof (get_next_id_above (e :: rest) e (or_introl eq_refl)).
  specialize (Hpos e (or_introl eq_refl)). lia.
Qed.

Lemma invoke_keeps_ids_in_order (args : command) :
  ids_in_order (records (fst (invoke now args f))).
Proof.
  unfold invoke. destruct args as [d s t | i d a c | c | i | m c |]; cbn [main].
  - rewrite add_expense_run.
    destruct (validate_amount s) as [a |]; [| exact Hordered].
    destruct (validate_category t) as [c |]; [| exact Hordered].
    cbn [fst records]. destruct Hordered as [Hinc Hpos]. split.
    + apply increase_snoc; [assumption |].
      intros e He. cbn [new_record id]. now apply get_next_id_above.
    + intros e He. apply in_app_iff in He. destruct He as [He | [<- | []]].
      * now apply Hpos.
      * cbn [new_record id]. apply get_next_id_positive.
  - destruct (is_None d && is_None a && is_None c); [exact Hordered |].
    rewrite update_expense_run.
    destruct (find_first i (records f)) as [[[before x] after] |] eqn:Hf;
      [| exact Hordered].
    destruct (update_fields x d a c) as [x' |] eqn:Hx'; [| exact Hordered].
    destruct (find_first_Some _ _ _ _ _ Hf) as [Hsplit _].
    destruct (update_fields_Ok _ _ _ _ _ Hx') as [Hid _].
    destruct Hordered as [Hinc Hpos]. unfold ids_increase in *.
    rewrite Hsplit in Hinc, Hpos. cbn [fst records]. split.
    + unfold ids_increase. rewrite map_app in *. cbn [map] in *.
      rewrite Hid. assumption.
    + intros e He. apply in_app_iff in He. destruct He as [He | [<- | He]].
      * apply Hpos. apply in_app_iff. auto.
      * rewrite Hid. apply Hpos. apply in_app_iff. simpl. auto.
      * apply Hpos. apply in_app_iff. simpl. auto.
  - rewrite list_expenses_run. exact Hordered.
  - rewrite delete_expense_run. cbv zeta.
    destruct (Nat.eqb _ _); [exact Hordered |].
    destruct Hordered as [Hinc Hpos]. cbn [fst records]. split.
    + now apply increase_filter.
    + intros e He. apply filter_In in He. apply Hpos, He.
  - rewrite get_summary_run. exact Hordered.
  - exact Hordered.
Qed.

End IdsInOrder.

(** X22. Along every session started from a store whose ids increase
    along the file and are at least 1 (a missing file, for one), the ids
    keep increasing along the file and stay at least 1: the program
    keeps the records in the order of their ids, which is the order of
    the rows [list_expenses] prints. *)
Theorem session_keeps_ids_in_order
    (runs : list (Datetime.datetime * command)) (f : data_file) :
  ids_in_order (records f) ->
  ids_in_order (records (fst (session runs f))).
Proof.
  revert f. induction runs as [| [now args] runs IH]; intros f Hordered.
  - assumption.
  - rewrite session_cons. apply IH. now apply invoke_keeps_ids_in_order.
Qed.

Lemma session_keeps_ids_in_order_witness :
  ids_in_order (records (fst (session
    [(Examples.jan5, Add "Coffee" "4.5" "Food");
     (Examples.jan5, Add "Bus" "2.75" "Transportation");
     (Examples.jan5, Delete 1);
     (Examples.jan5, Add "Tea" "3" "Food")] NoFile))).
Proof.
  apply (session_keeps_ids_in_order
           [(Examples.jan5, Add "Coffee" "4.5" "Food");
            (Examples.jan5, Add "Bus" "2.75" "Transportation");
            (Examples.jan5, Delete 1);
            (Examples.jan5, Add "Tea" "3" "Food")] NoFile).
  split; [constructor | intros e []].
Defined.

(** X23. Along every session run under clocks of the calendar with a
    four-digit year, started from a store whose dates [strptime] reads
    (a missing file, for one), every date of the store stays readable;
    so the summary of a month of 1..12 never answers "Invalid month" on
    a store the program has written. *)
Theorem session_dates_stay_readable
    (runs : list (Datetime.datetime * command)) (f : data_file)
    (now : Datetime.datetime) (m : Z) (category : option string) :
  Forall (fun r => running_clock (fst r)) runs ->
  dates_parse (records f) ->
  1 <= m <= 12 ->
  dates_parse (records (fst (session runs f)))
  /\ snd (run (get_summary (Some m) category) now (fst (session runs f)))
     <> [InvalidMonthLine].
Proof.
  intros Hclocks Hdates Hm.
  pose proof (session_keeps_dates runs f Hclocks Hdates) as Hkept.
  split; [assumption |].
  rewrite get_summary_run. cbn [snd].
  assert (Hmonth : forall es, dates_parse es ->
            month_lines now (Some m) category es <> [InvalidMonthLine]).
  { intros es Hes. unfold month_lines, total_lines.
    destruct (valid_month_truthy m Hm) as [-> ->].
    rewrite filter_month_parse by assumption.
    destruct (truthy_str category); discriminate. }
  destruct (records (fst (session runs f))) as [| e rest] eqn:Hrec;
    [discriminate |].
  destruct (truthy_str category) as [c |]; [| now apply Hmonth].
  destruct (mem c CATEGORIES); [| discriminate]. cbv zeta.
  pose proof (dates_parse_filter (in_category c) _ Hkept) as Hfiltered.
  destruct (filter (in_category c) (e :: rest)); [discriminate |].
  now apply Hmonth.
Qed.

Lemma session_dates_stay_readable_witness :
  dates_parse (records (fst (session
    [(Examples.jan5, Add "Coffee" "4.5" "Food");
     (Examples.jan5, Update 1 (Some "Tea") None None)] NoFile)))
  /\ snd (run (get_summary (Some 3) (Some "Food")) Examples.jan5
            (fst (session
               [(Examples.jan5, Add "Coffee" "4.5" "Food");
                (Examples.jan5, Update 1 (Some "Tea") None None)] NoFile)))
     <> [InvalidMonthLine].
Proof.
  apply session_dates_stay_readable.
  - repeat constructor; simpl; lia.
  - intros e [].
  - lia.
Defined.

(** X24. The record written by a successful [add_expense] under a clock
    of the calendar with a four-digit year carries the id reported and a
    date that [strptime] reads back as the day of the clock; so the
    month filter of [get_summary] keeps it for the month of the clock,
    as long as the year of the clock has not changed. *)
Theorem added_record_is_of_current_month (now : Datetime.datetime)
    (f : data_file) (d s t : string) (n : Z) :
  running_clock now ->
  snd (run (add_expense d s t) now f) = [AddedLine n] ->
  exists x,
    records (fst (run (add_expense d s t) now f)) = records f ++ [x] /\
    id x = n /\
    Datetime.strptime (date x) = Some now /\
    in_month (Datetime.month now) (Datetime.year now) x = true.
Proof.
  intros Hclock Hadd.
  destruct (add_expense_success now f d s t n Hadd) as [a [c [_ [_ [Hn Hfile]]]]].
  exists (new_record now f d a c). rewrite Hfile. cbn [records].
  pose proof (strptime_strftime now Hclock) as Hdate.
  repeat split.
  - cbn [new_record id]. symmetry. assumption.
  - exact Hdate.
  - unfold in_month. cbn [new_record date]. rewrite Hdate, !Z.eqb_refl. reflexivity.
Qed.

Lemma added_record_is_of_current_month_witness :
  exists x,
    records (fst (run (add_expense "Bus" "2.75" "Transportation") Examples.jan5
                    (Json [Examples.coffee])))
    = records (Json [Examples.coffee]) ++ [x] /\
    id x = 2 /\
    Datetime.strptime (date x) = Some Examples.jan5 /\
    in_month (Datetime.month Examples.jan5) (Datetime.year Examples.jan5) x = true.
Proof.
  apply added_record_is_of_current_month.
  - split; [reflexivity | simpl; lia].
  - reflexivity.
Defined.

(** ** Missing and malformed files *)

(** X25. Two data files from which [load_expenses] returns the same
    records cannot be told apart through the program: every command line
    prints the same on both, and either leaves both as they are or
    writes the same content to both.  In particular a missing file, a
    file of text that is not JSON ([json.JSONDecodeError], the one error
    [load_expenses] catches) and a file holding the empty list behave
    alike, and the first successful add on such a file replaces its
    content. *)
Theorem same_records_same_behaviour (now : Datetime.datetime)
    (f1 f2 : data_file) (args : command) :
  records f1 = records f2 ->
  snd (invoke now args f1) = snd (invoke now args f2)
  /\ ((fst (invoke now args f1) = f1 /\ fst (invoke now args f2) = f2)
      \/ fst (invoke now args f1) = fst (invoke now args f2)).
Proof.
  intros Hsame. unfold invoke.
  destruct args as [d s t | i d a c | c | i | m c |]; cbn [main].
  - rewrite !add_expense_run, Hsame. unfold new_record. rewrite Hsame.
    destruct (validate_amount s); [| auto].
    destruct (validate_category t); auto.
  - destruct (is_None d && is_None a && is_None c); [auto |].
    rewrite !update_expense_run, Hsame.
    destruct (find_first i (records f2)) as [[[before x] after] |]; [| auto].
    destruct (update_fields x d a c); auto.
  - rewrite !list_expenses_run, Hsame. auto.
  - rewrite !delete_expense_run, Hsame. cbv zeta.
    destruct (Nat.eqb _ _); auto.
  - rewrite !get_summary_run, Hsame. auto.
  - auto.
Qed.

Lemma same_records_same_behaviour_witness :
  snd (invoke Examples.jan5 (Add "Coffee" "4.5" "Food") Malformed)
  = snd (invoke Examples.jan5 (Add "Coffee" "4.5" "Food") NoFile)
  /\ ((fst (invoke Examples.jan5 (Add "Coffee" "4.5" "Food") Malformed) = Malformed /\
       fst (invoke Examples.jan5 (Add "Coffee" "4.5" "Food") NoFile) = NoFile)
      \/ fst (invoke Examples.jan5 (Add "Coffee" "4.5" "Food") Malformed)
         = fst (invoke Examples.jan5 (Add "Coffee" "4.5" "Food") NoFile)).
Proof.
  apply same_records_same_behaviour. reflexivity.
Defined.
